(** * Lane consolidation and smoothing of [project1.ipynb]

    A shallow embedding of the classes [HistoricalLaneDataTracker] and
    [LineProcessor] and of the function [draw_lines], with the properties the
    specification states about them.

    Python's arithmetic is duck typed: the same program text runs on any
    number type.  The embedding is therefore written once over an interface
    [Number] and read at two instances:
    - [R], exact real arithmetic, in which the algebraic statements about
      weighted means are proved;
    - [float], IEEE 754 binary64, the arithmetic the notebook runs on (Python
      [float] and [numpy.float64]), in which concrete runs are evaluated.

    Pixel coordinates are integers ([numpy.int32] out of the line detector,
    plain [int] in hand-written scenarios) and are modelled as [Z]. *)

From Stdlib Require Import ZArith List Bool Lia Permutation.
From Stdlib Require Import Reals RList Lra.
From Stdlib Require Import Floats.
Import ListNotations.

Set Implicit Arguments.

(** ** Exceptions and results *)

(** The exceptions the modelled code can raise.  [ZeroDivisionError] stands for
    the division by a zero slope in [find_x2_from_slope] (with numpy scalars
    the quotient is [inf] or [nan] and it is the enclosing [int()] that raises):
    an exception either way.  [OverflowError] stands for [int()] applied to
    [inf] or [nan] ([OverflowError], resp. [ValueError]). *)
Inductive exn : Set :=
| StatisticsError
| ZeroDivisionError
| OverflowError.

Inductive result (A : Type) : Type :=
| Ok (a : A)
| Raise (e : exn).

Arguments Ok {A} a.
Arguments Raise {A} e.

Definition rbind {A B : Type} (r : result A) (k : A -> result B) : result B :=
  match r with
  | Ok a => k a
  | Raise e => Raise e
  end.

(** ** The arithmetic interface *)

Declare Scope num_scope.
Delimit Scope num_scope with num.

Class Number (num : Type) : Type := {
  zero : num;                       (* the literals 0 and 0.0 *)
  one : num;                        (* the literal 1 *)
  two : num;                        (* the literal 2.0 *)
  nadd : num -> num -> num;
  nsub : num -> num -> num;
  nmul : num -> num -> num;
  ndiv : num -> num -> num;
  nsqrt : num -> num;               (* math.sqrt *)
  neqb : num -> num -> bool;        (* == *)
  nltb : num -> num -> bool;        (* < *)
  of_int : Z -> num;                (* an int operand met by a float one *)
  int : num -> option Z;            (* int(): truncation towards zero *)
  exact_mean : list num -> num      (* statistics.mean on a non-empty list *)
}.

(** The two facts about comparisons the generic proofs rely on. *)
Class NumberLaws (num : Type) `{Number num} : Prop := {
  nltb_zero_neqb : forall x, nltb zero x = true -> neqb x zero = false;
  nltb_one_zero : nltb one zero = false
}.

Arguments NumberLaws num {_}.

(** Addition commutes, so that a sum of two squares reads the same in either
    order. *)
Class AdditionCommutes (num : Type) `{Number num} : Prop := {
  nadd_comm : forall a b : num, nadd a b = nadd b a
}.

Arguments AdditionCommutes num {_}.

Infix "+" := nadd : num_scope.
Infix "-" := nsub : num_scope.
Infix "*" := nmul : num_scope.
Infix "/" := ndiv : num_scope.
Infix "=?" := neqb : num_scope.
Infix "<?" := nltb : num_scope.

(** *** Exact arithmetic *)

Definition Reqb (x y : R) : bool := if Req_dec_T x y then true else false.
Definition Rltb (x y : R) : bool := if Rlt_dec x y then true else false.

(** Truncation towards zero: the floor of a non-negative number, the ceiling
    of a negative one. *)
Definition Rtrunc (r : R) : Z :=
  if Rle_dec 0 r then Int_part r else (- Int_part (- r))%Z.

Definition Rsum (l : list R) : R := fold_right Rplus 0%R l.

Definition Rmean (l : list R) : R := (Rsum l / INR (length l))%R.

#[export] Instance ExactArithmetic : Number R := {|
  zero := 0%R;
  one := 1%R;
  two := 2%R;
  nadd := Rplus;
  nsub := Rminus;
  nmul := Rmult;
  ndiv := Rdiv;
  nsqrt := R_sqrt.sqrt;
  neqb := Reqb;
  nltb := Rltb;
  of_int := IZR;
  int := fun r => Some (Rtrunc r);
  exact_mean := Rmean
|}.

(** *** Binary64 arithmetic *)

Module Binary64.

(** An integer converted to the nearest float. *)
Definition of_int (z : Z) : float :=
  SF2Prim (binary_normalize prec emax z 0 false).

Definition is_finite (x : float) : bool :=
  match Prim2SF x with
  | S754_zero _ | S754_finite _ _ _ => true
  | S754_infinity _ | S754_nan => false
  end.

(** [int(x)]: the integer part of a finite float, nothing for [inf] and
    [nan]. *)
Definition int (x : float) : option Z :=
  match Prim2SF x with
  | S754_zero _ => Some 0%Z
  | S754_finite s m e =>
      let a := match e with
               | Zneg k => Z.shiftr (Zpos m) (Zpos k)
               | _ => Z.shiftl (Zpos m) e
               end in
      Some (if s then (- a)%Z else a)
  | S754_infinity _ | S754_nan => None
  end.

(** A finite float as [m * 2 ^ e], exactly. *)
Definition exact_ratio (x : float) : Z * Z :=
  match Prim2SF x with
  | S754_finite s m e => (if s then Zneg m else Zpos m, e)
  | _ => (0%Z, 0%Z)
  end.

(** The exact sum of [m1 * 2 ^ e1] and [m2 * 2 ^ e2]. *)
Definition exact_add (a b : Z * Z) : Z * Z :=
  let '(m1, e1) := a in
  let '(m2, e2) := b in
  let e := Z.min e1 e2 in
  ((Z.shiftl m1 (e1 - e) + Z.shiftl m2 (e2 - e))%Z, e).

Definition exact_sum (l : list float) : Z * Z :=
  fold_left (fun acc x => exact_add acc (exact_ratio x)) l (0%Z, 0%Z).

(** [m * 2 ^ e / n] rounded once, to nearest even. *)
Definition round_quotient (m e : Z) (n : positive) : float :=
  match m with
  | Z0 => 0%float
  | Zpos p =>
      let '(q, e', l) := SFdiv_core_binary prec emax (Zpos p) e (Zpos n) 0 in
      SF2Prim (binary_round_aux prec emax false q e' l)
  | Zneg p =>
      let '(q, e', l) := SFdiv_core_binary prec emax (Zpos p) e (Zpos n) 0 in
      SF2Prim (binary_round_aux prec emax true q e' l)
  end.

(** [statistics.mean] on floats: the data are summed as exact fractions and
    the quotient by their number is rounded once.  When some datum is [inf]
    or [nan] the finite data are ignored and the others added as floats. *)
Definition mean (l : list float) : float :=
  if forallb is_finite l then
    let '(m, e) := exact_sum l in
    round_quotient m e (Pos.of_nat (length l))
  else
    (fold_left PrimFloat.add (filter (fun x => negb (is_finite x)) l) 0
     / of_int (Z.of_nat (length l)))%float.

End Binary64.

#[export] Instance Binary64Arithmetic : Number float := {|
  zero := 0%float;
  one := 1%float;
  two := 2%float;
  nadd := PrimFloat.add;
  nsub := PrimFloat.sub;
  nmul := PrimFloat.mul;
  ndiv := PrimFloat.div;
  nsqrt := PrimFloat.sqrt;
  neqb := PrimFloat.eqb;
  nltb := PrimFloat.ltb;
  of_int := Binary64.of_int;
  int := Binary64.int;
  exact_mean := Binary64.mean
|}.

(** ** The program *)

Section Program.

Context {num : Type} `{Number num}.
Local Open Scope num_scope.

(** *** [statistics.mean] *)

Definition statistics_mean (data : list num) : result num :=
  match data with
  | [] => Raise StatisticsError
  | _ :: _ => Ok (exact_mean data)
  end.

(** *** [class HistoricalLaneDataTracker] *)

Record HistoricalLaneDataTracker : Type := {
  number_of_slopes_to_remember : nat;
  slopes : list num;
  mean_x_values : list num;
  mean_y_values : list num
}.

(** [__init__] *)
Definition HistoricalLaneDataTracker_init : HistoricalLaneDataTracker :=
  {| number_of_slopes_to_remember := 40;
     slopes := [];
     mean_x_values := [];
     mean_y_values := [] |}.

(** [l.pop(0)], its returned element dropped.  The lists it is applied to
    have just been appended to, so the [IndexError] of an empty list does
    not arise. *)
Definition pop0 (l : list num) : list num := tl l.

Definition update (self : HistoricalLaneDataTracker)
    (mean_x mean_y mean_slope : num) : HistoricalLaneDataTracker :=
  let xs := mean_x_values self ++ [mean_x] in
  let ys := mean_y_values self ++ [mean_y] in
  let ss := slopes self ++ [mean_slope] in
  if (number_of_slopes_to_remember self <? length ss)%nat then
    {| number_of_slopes_to_remember := number_of_slopes_to_remember self;
       slopes := pop0 ss;
       mean_x_values := pop0 xs;
       mean_y_values := pop0 ys |}
  else
    {| number_of_slopes_to_remember := number_of_slopes_to_remember self;
       slopes := ss;
       mean_x_values := xs;
       mean_y_values := ys |}.

Definition get_latest_lane_data (self : HistoricalLaneDataTracker)
    : result (num * num * num) :=
  rbind (statistics_mean (mean_x_values self)) (fun mx =>
  rbind (statistics_mean (mean_y_values self)) (fun my =>
  rbind (statistics_mean (slopes self)) (fun ms =>
  Ok (mx, my, ms)))).

(** *** The two global trackers

    [global_left_lane_slope_holder] and [global_right_lane_slope_holder] are
    module-level objects.  Each [LineProcessor] keeps a reference to one of
    them and mutates it in place, so the trackers live in a store that is
    threaded through every call, and a processor holds the name of its
    tracker. *)

Inductive TrackerRef : Set := GlobalLeft | GlobalRight.

Record Globals : Type := {
  global_left_lane_slope_holder : HistoricalLaneDataTracker;
  global_right_lane_slope_holder : HistoricalLaneDataTracker
}.

Definition initial_globals : Globals :=
  {| global_left_lane_slope_holder := HistoricalLaneDataTracker_init;
     global_right_lane_slope_holder := HistoricalLaneDataTracker_init |}.

Definition deref (g : Globals) (r : TrackerRef) : HistoricalLaneDataTracker :=
  match r with
  | GlobalLeft => global_left_lane_slope_holder g
  | GlobalRight => global_right_lane_slope_holder g
  end.

Definition assign (g : Globals) (r : TrackerRef)
    (t : HistoricalLaneDataTracker) : Globals :=
  match r with
  | GlobalLeft =>
      {| global_left_lane_slope_holder := t;
         global_right_lane_slope_holder := global_right_lane_slope_holder g |}
  | GlobalRight =>
      {| global_left_lane_slope_holder := global_left_lane_slope_holder g;
         global_right_lane_slope_holder := t |}
  end.

(** Computations that read and write the store and may raise.  The store
    written so far survives an exception, as the mutated objects do. *)
Definition M (A : Type) : Type := Globals -> Globals * result A.

Definition ret {A : Type} (a : A) : M A := fun g => (g, Ok a).

Definition bind {A B : Type} (m : M A) (k : A -> M B) : M B :=
  fun g =>
    match m g with
    | (g', Ok a) => k a g'
    | (g', Raise e) => (g', Raise e)
    end.

Definition lift {A : Type} (r : result A) : M A := fun g => (g, r).

(** A method call [r.update(x, y, s)] on the tracker named [r]. *)
Definition call_update (r : TrackerRef) (x y s : num) : M unit :=
  fun g => (assign g r (update (deref g r) x y s), Ok tt).

(** A method call [r.get_latest_lane_data()]. *)
Definition call_get_latest_lane_data (r : TrackerRef) : M (num * num * num) :=
  fun g => (g, get_latest_lane_data (deref g r)).

Notation "x <- m ;; k" := (bind m (fun x => k))
  (at level 61, m at next level, right associativity).
Notation "' p <- m ;; k" := (bind m (fun x => match x with p => k end))
  (at level 61, p pattern, m at next level, right associativity).
Notation "m ;; k" := (bind m (fun _ => k))
  (at level 61, right associativity).

(** *** [class LineProcessor] *)

Record LineProcessor : Type := {
  sum_of_slopes : num;
  sum_of_coordinates : num * num;
  total_length : num;
  lane_data_tracker : TrackerRef
}.

(** [__init__] *)
Definition LineProcessor_init (lane_data_tracker : TrackerRef) : LineProcessor :=
  {| sum_of_slopes := zero;
     sum_of_coordinates := (zero, zero);
     total_length := zero;
     lane_data_tracker := lane_data_tracker |}.

(** [((a + b) / 2.0) * weight], the sum taken on the integers; the divisor
    2.0 is not zero. *)
Definition weighted_mid_point (a b : Z) (weight : num) : num :=
  (of_int (a + b) / two) * weight.

(** [math.pow(d, 2)] *)
Definition math_pow2 (d : num) : num := d * d.

(** [math.sqrt(math.pow((y2 - y1), 2) + math.pow((x2 - x1), 2))] *)
Definition line_length (x1 y1 x2 y2 : Z) : num :=
  nsqrt (math_pow2 (of_int (y2 - y1)) + math_pow2 (of_int (x2 - x1))).

Definition add_line (self : LineProcessor) (x1 y1 x2 y2 : Z) (slope : num)
    : LineProcessor :=
  let line_length := line_length x1 y1 x2 y2 in
  {| total_length := total_length self + line_length;
     sum_of_slopes := sum_of_slopes self + slope * line_length;
     sum_of_coordinates :=
       (fst (sum_of_coordinates self) + weighted_mid_point x1 x2 line_length,
        snd (sum_of_coordinates self) + weighted_mid_point y1 y2 line_length);
     lane_data_tracker := lane_data_tracker self |}.

(** [a / b] with a float divisor: a zero divisor raises. *)
Definition truediv (a b : num) : result num :=
  if b =? zero then Raise ZeroDivisionError else Ok (a / b).

(** [a / b] on two integers: true division, a zero divisor raises. *)
Definition int_truediv (a b : Z) : result num :=
  if (b =? 0)%Z then Raise ZeroDivisionError else Ok (of_int a / of_int b).

(** [int(x1 - ((y1 - y2) / current_slope))] *)
Definition find_x2_from_slope (x1 y1 : num) (y2 : Z) (current_slope : num)
    : result Z :=
  rbind (truediv (y1 - of_int y2) current_slope) (fun q =>
  match int (x1 - q) with
  | Some x2 => Ok x2
  | None => Raise OverflowError
  end).

Definition get_mean_line (self : LineProcessor) (bottom_y top_y : Z)
    : M (Z * Z * Z * Z) :=
  (if negb (total_length self =? zero) then
     mean_x <- lift (truediv (fst (sum_of_coordinates self)) (total_length self)) ;;
     mean_y <- lift (truediv (snd (sum_of_coordinates self)) (total_length self)) ;;
     mean_slope <- lift (truediv (sum_of_slopes self) (total_length self)) ;;
     call_update (lane_data_tracker self) mean_x mean_y mean_slope
   else ret tt) ;;
  '(latest_x, latest_y, latest_slope) <-
     call_get_latest_lane_data (lane_data_tracker self) ;;
  bottom_x <- lift (find_x2_from_slope latest_x latest_y bottom_y latest_slope) ;;
  top_x <- lift (find_x2_from_slope latest_x latest_y top_y latest_slope) ;;
  ret (bottom_x, bottom_y, top_x, top_y).

(** *** [draw_lines] *)

(** A detected segment [(x1, y1, x2, y2)]. *)
Definition Segment : Type := Z * Z * Z * Z.

(** The polygon [area_of_interest[0]]: four vertices [(x, y)]. *)
Record Polygon : Type := {
  vertex0 : Z * Z;
  vertex1 : Z * Z;
  vertex2 : Z * Z;
  vertex3 : Z * Z
}.

(** The local function [slope]. *)
Definition slope (arg_x1 arg_y1 arg_x2 arg_y2 : Z) : result num :=
  if (0 =? arg_x2 - arg_x1)%Z then Ok one
  else int_truediv (arg_y2 - arg_y1) (arg_x2 - arg_x1).

(** The body of the loop over the segments, on the pair of processors
    [(left_line_processor, right_line_processor)]. *)
Definition classify (ps : LineProcessor * LineProcessor) (seg : Segment)
    : result (LineProcessor * LineProcessor) :=
  let '(x1, y1, x2, y2) := seg in
  rbind (slope x1 y1 x2 y2) (fun current_slope =>
  if current_slope <? zero then
    Ok (add_line (fst ps) x1 y1 x2 y2 current_slope, snd ps)
  else
    Ok (fst ps, add_line (snd ps) x1 y1 x2 y2 current_slope)).

(** A [for] loop whose body may raise. *)
Fixpoint for_each {A S : Type} (body : S -> A -> result S) (l : list A) (s : S)
    : result S :=
  match l with
  | [] => Ok s
  | a :: l' => rbind (body s a) (for_each body l')
  end.

(** [for line in lines: for x1, y1, x2, y2 in line: ...], from the two fresh
    processors. *)
Definition classify_all (lines : list (list Segment))
    : result (LineProcessor * LineProcessor) :=
  for_each (fun ps line => for_each classify line ps) lines
    (LineProcessor_init GlobalLeft, LineProcessor_init GlobalRight).

(** [draw_lines], up to the two calls of [cv2.line]: it yields the two lines
    [(left_line, right_line)] that are drawn.  [lines] is a sequence of
    sequences of segments, as the line detector returns it when it finds at
    least one line. *)
Definition draw_lines (lines : list (list Segment)) (area_of_interest : Polygon)
    : M ((Z * Z * Z * Z) * (Z * Z * Z * Z)) :=
  '(left_line_processor, right_line_processor) <- lift (classify_all lines) ;;
  let bottom_left_y := snd (vertex0 area_of_interest) in
  let top_left_y := snd (vertex1 area_of_interest) in
  left_line <- get_mean_line left_line_processor bottom_left_y top_left_y ;;
  let bottom_right_y := snd (vertex3 area_of_interest) in
  let top_right_y := snd (vertex2 area_of_interest) in
  right_line <- get_mean_line right_line_processor bottom_right_y top_right_y ;;
  ret (left_line, right_line).

(** A session: [draw_lines] on each frame in turn, on the same two global
    trackers.  A frame that raises leaves the trackers as it mutated them. *)
Definition Frame : Type := list (list Segment) * Polygon.

Definition run_frames (frames : list Frame) (g : Globals) : Globals :=
  fold_left (fun g f => fst (draw_lines (fst f) (snd f) g)) frames g.

End Program.

Arguments HistoricalLaneDataTracker num : clear implicits.
Arguments Globals num : clear implicits.
Arguments LineProcessor num : clear implicits.
Arguments M num A : clear implicits.

(** ** Vocabulary of the statements *)

Section Vocabulary.

Context {num : Type} `{Number num}.
Local Open Scope num_scope.

(** The calls [update(x, y, s)] for each triple of a list, in order. *)
Definition push_all (t : HistoricalLaneDataTracker num)
    (triples : list (num * num * num)) : HistoricalLaneDataTracker num :=
  fold_left (fun t p => update t (fst (fst p)) (snd (fst p)) (snd p)) triples t.

Definition xs_of (triples : list (num * num * num)) : list num :=
  map (fun p => fst (fst p)) triples.
Definition ys_of (triples : list (num * num * num)) : list num :=
  map (fun p => snd (fst p)) triples.
Definition slopes_of (triples : list (num * num * num)) : list num :=
  map (fun p => snd p) triples.

(** The calls [add_line(x1, y1, x2, y2, slope)] for each segment of a list
    given with the slope passed for it, in order. *)
Definition add_lines (p : LineProcessor num) (segs : list (Segment * num))
    : LineProcessor num :=
  fold_left
    (fun p a => let '(x1, y1, x2, y2) := fst a in add_line p x1 y1 x2 y2 (snd a))
    segs p.

(** A sum taken from 0 in the order of the list, as the running sums of
    [add_line] are. *)
Definition nsum (l : list num) : num := fold_left nadd l zero.

Definition length_of (a : Segment * num) : num :=
  let '(x1, y1, x2, y2) := fst a in line_length x1 y1 x2 y2.

(** The Euclidean length [sqrt((x2 - x1)^2 + (y2 - y1)^2)] of a segment,
    written out on the arithmetic: integer differences, their squares, the
    sum of the two squares and its square root. *)
Definition euclidean_length (a : Segment * num) : num :=
  let '(x1, y1, x2, y2) := fst a in
  nsqrt (of_int (x2 - x1) * of_int (x2 - x1)
         + of_int (y2 - y1) * of_int (y2 - y1)).

(** The midpoint abscissa [(x1 + x2) / 2.0] and ordinate [(y1 + y2) / 2.0]. *)
Definition mid_x (a : Segment * num) : num :=
  let '(x1, y1, x2, y2) := fst a in (of_int (x1 + x2) / two)%num.
Definition mid_y (a : Segment * num) : num :=
  let '(x1, y1, x2, y2) := fst a in (of_int (y1 + y2) / two)%num.

(** The three means [get_mean_line] pushes when [total_length != 0]. *)
Definition aggregate (p : LineProcessor num) : num * num * num :=
  (fst (sum_of_coordinates p) / total_length p,
   snd (sum_of_coordinates p) / total_length p,
   sum_of_slopes p / total_length p).

(** The store after the push of the aggregate of [p]. *)
Definition pushed (p : LineProcessor num) (g : Globals num) : Globals num :=
  let r := lane_data_tracker p in
  let '(x, y, s) := aggregate p in
  assign g r (update (deref g r) x y s).

(** The tuple built from the mean [(x, y, s)] of the history. *)
Definition line_of_mean (m : num * num * num) (bottom_y top_y : Z)
    : result (Z * Z * Z * Z) :=
  let '(x, y, s) := m in
  rbind (find_x2_from_slope x y bottom_y s) (fun bottom_x =>
  rbind (find_x2_from_slope x y top_y s) (fun top_x =>
  Ok (bottom_x, bottom_y, top_x, top_y))).

Definition empty_history (t : HistoricalLaneDataTracker num) : Prop :=
  slopes t = [] /\ mean_x_values t = [] /\ mean_y_values t = [].

(** The scenario of the specification: one segment of slope -1, one of
    slope +1, and a region of interest between [y = 100] (bottom) and
    [y = 50] (top). *)
Definition scenario_lines : list (list Segment) :=
  [[(0, 100, 10, 90)%Z]; [(100, 100, 110, 110)%Z]].

Definition scenario_area : Polygon :=
  {| vertex0 := (0, 100)%Z;
     vertex1 := (45, 50)%Z;
     vertex2 := (65, 50)%Z;
     vertex3 := (110, 100)%Z |}.

End Vocabulary.

(** The last [n] elements of a list. *)
Definition keep_last {A : Type} (n : nat) (l : list A) : list A :=
  skipn (length l - n) l.

(** *** In exact arithmetic *)

Section ExactVocabulary.

Local Open Scope R_scope.

(** The running sums of a processor fed with negative slopes only: nothing
    yet, or a positive total length and a negative sum of slopes. *)
Definition left_sums (p : LineProcessor R) : Prop :=
  (total_length p = 0 /\ sum_of_slopes p = 0) \/
  (0 < total_length p /\ sum_of_slopes p < 0).

(** Every slope in the history is negative. *)
Definition negative_history (t : HistoricalLaneDataTracker R) : Prop :=
  Forall (fun s => s < 0) (slopes t).

(** The right lane after the horizontal segment [(0, 5, 10, 5)] alone. *)
Definition horizontal_right : LineProcessor R :=
  add_line (LineProcessor_init GlobalRight) 0 5 10 5 (0 / 10).

Definition two_right_segments : list (Segment * R) :=
  [((0, 0, 3, 4)%Z, (4 / 3)%R); ((0, 0, 4, 3)%Z, (3 / 4)%R)].

End ExactVocabulary.

(** *** In binary64 *)

(** The two trackers as the module creates them. *)
Definition fresh_trackers : Globals float := initial_globals.

Definition one_left_segment : list (Segment * float) :=
  [((0, 100, 10, 90)%Z, (-1)%float)].

(** Forty-five pushes: the triples [(n, 2n, -n)] for [n] from 1 to 45. *)
Definition forty_five_triples : list (float * float * float) :=
  map (fun n => let z := Z.of_nat n in
                (Binary64.of_int z, Binary64.of_int (2 * z), Binary64.of_int (- z)))
    (seq 1 45).

(** The trackers after five frames of the scenario. *)
Definition five_frames : Globals float :=
  run_frames (repeat (scenario_lines, scenario_area) 5) fresh_trackers.

(** ** Vocabulary of the further properties *)

Section FurtherVocabulary.

Context {num : Type} `{Number num}.
Local Open Scope num_scope.

(** The value [slope] computes for a segment. *)
Definition slope_value (seg : Segment) : num :=
  let '(x1, y1, x2, y2) := seg in
  if (0 =? x2 - x1)%Z then one else of_int (y2 - y1) / of_int (x2 - x1).

(** A segment with the slope [draw_lines] passes to [add_line] for it. *)
Definition tagged (seg : Segment) : Segment * num := (seg, slope_value seg).

(** The test [current_slope < 0.0] of [draw_lines]. *)
Definition goes_left (seg : Segment) : bool := slope_value seg <? zero.

Definition goes_right (seg : Segment) : bool := negb (goes_left seg).

(** The abscissa [mean_x - (mean_y - y) / mean_slope], before [int()]. *)
Definition x_at (m : num * num * num) (y : Z) : num :=
  let '(mean_x, mean_y, mean_slope) := m in
  mean_x - (mean_y - of_int y) / mean_slope.

(** A tracker as [__init__] and [update] leave it: capacity 40 and three
    lists of one length, at most 40. *)
Definition well_formed (t : HistoricalLaneDataTracker num) : Prop :=
  number_of_slopes_to_remember t = 40 /\
  length (mean_x_values t) = length (slopes t) /\
  length (mean_y_values t) = length (slopes t) /\
  length (slopes t) <= 40.

(** The polygon [process_image] passes down to [draw_lines]. *)
Definition process_image_area_of_interest : Polygon :=
  {| vertex0 := (50, 539)%Z;
     vertex1 := (440, 325)%Z;
     vertex2 := (510, 325)%Z;
     vertex3 := (910, 539)%Z |}.

End FurtherVocabulary.

Section FurtherExactVocabulary.

Local Open Scope R_scope.

(** The running sums of a processor fed with non-negative slopes only. *)
Definition right_sums (p : LineProcessor R) : Prop :=
  0 <= total_length p /\ 0 <= sum_of_slopes p.

(** No slope in the history is negative. *)
Definition nonnegative_history (t : HistoricalLaneDataTracker R) : Prop :=
  Forall (fun s => 0 <= s) (slopes t).

End FurtherExactVocabulary.

(** A right processor holding one horizontal segment, in binary64. *)
Definition horizontal_right_binary64 : LineProcessor float :=
  add_line (LineProcessor_init GlobalRight) 0 5 10 5 0%float.

(** The left processor of the scenario, in exact arithmetic. *)
Definition scenario_left_exact : LineProcessor R :=
  add_line (LineProcessor_init GlobalLeft) 0 100 10 90 (-10 / 10)%R.

(** Two parallel segments of slope 4/3. *)
Definition two_parallel_segments : list (Segment * R) :=
  [((0, 0, 3, 4)%Z, (4 / 3)%R); ((10, 0, 13, 4)%Z, (4 / 3)%R)].

(** One frame with the left segment of the scenario only. *)
Definition left_only_lines : list (list Segment) := [[(0, 100, 10, 90)%Z]].

(** One frame with a right segment only. *)
Definition right_only_lines : list (list Segment) := [[(100, 100, 110, 110)%Z]].

(** * Properties *)

(** ** The two arithmetics *)

Lemma Reqb_true (x y : R) : Reqb x y = true <-> x = y.
Proof. unfold Reqb. destruct (Req_dec_T x y); split; congruence. Qed.

Lemma Reqb_false (x y : R) : Reqb x y = false <-> x <> y.
Proof. unfold Reqb. destruct (Req_dec_T x y); split; congruence. Qed.

Lemma Rltb_true (x y : R) : Rltb x y = true <-> (x < y)%R.
Proof. unfold Rltb. destruct (Rlt_dec x y); split; congruence. Qed.

Lemma Rltb_false (x y : R) : Rltb x y = false <-> (y <= x)%R.
Proof.
  unfold Rltb. destruct (Rlt_dec x y); split; try congruence; lra.
Qed.

Lemma R_nltb_zero_neqb (x : R) : Rltb 0 x = true -> Reqb x 0 = false.
Proof. rewrite Rltb_true, Reqb_false. lra. Qed.

Lemma R_nltb_one_zero : Rltb 1 0 = false.
Proof. apply Rltb_false. lra. Qed.

#[export] Instance ExactArithmeticLaws : NumberLaws R.
Proof. split; [exact R_nltb_zero_neqb | exact R_nltb_one_zero]. Qed.

Lemma float_ltb_zero_neqb (x : float) :
  PrimFloat.ltb 0 x = true -> PrimFloat.eqb x 0 = false.
Proof.
  rewrite ltb_spec, eqb_spec.
  change (Prim2SF 0) with (S754_zero false).
  destruct (Prim2SF x) as [s| s | | s m e]; try destruct s; cbn; congruence.
Qed.

Lemma float_ltb_one_zero : PrimFloat.ltb 1 0 = false.
Proof. reflexivity. Qed.

#[export] Instance Binary64ArithmeticLaws : NumberLaws float.
Proof. split; [exact float_ltb_zero_neqb | exact float_ltb_one_zero]. Qed.

#[export] Instance ExactAdditionCommutes : AdditionCommutes R.
Proof. split. exact Rplus_comm. Qed.

(** IEEE addition commutes, on every pair of floats. *)
Lemma SF64add_comm (x y : spec_float) : SF64add x y = SF64add y x.
Proof.
  unfold SF64add.
  destruct x as [sx|sx| |sx mx ex], y as [sy|sy| |sy my ey]; try reflexivity.
  - destruct sx, sy; reflexivity.
  - destruct sx, sy; reflexivity.
  - cbn [SFadd]. rewrite (Z.min_comm ey ex). f_equal. apply Z.add_comm.
Qed.

Lemma float_add_comm (a b : float) : PrimFloat.add a b = PrimFloat.add b a.
Proof. apply Prim2SF_inj. rewrite !add_spec. apply SF64add_comm. Qed.

#[export] Instance Binary64AdditionCommutes : AdditionCommutes float.
Proof. split. exact float_add_comm. Qed.

(** ** The last [n] elements of a list *)

Section KeepLast.

Context {A : Type}.

Lemma keep_last_length (n : nat) (l : list A) :
  length (keep_last n l) = Nat.min n (length l).
Proof. unfold keep_last. rewrite length_skipn. lia. Qed.

Lemma keep_last_short (n : nat) (l : list A) :
  length l <= n -> keep_last n l = l.
Proof.
  intros Hle. unfold keep_last.
  replace (length l - n) with 0 by lia. reflexivity.
Qed.

Lemma tl_skipn (k : nat) (l : list A) : tl (skipn k l) = skipn (S k) l.
Proof.
  revert l. induction k as [|k IH]; intros [|a l]; simpl; auto.
Qed.

(** Appending one element to a window and dropping the head when the window
    overflows is the window of the longer list. *)
Lemma keep_last_snoc (n : nat) (l : list A) (a : A) :
  keep_last n (l ++ [a]) =
  if n <? length (keep_last n l ++ [a])
  then tl (keep_last n l ++ [a]) else keep_last n l ++ [a].
Proof.
  rewrite length_app, keep_last_length. simpl length.
  destruct (Nat.ltb_spec n (Nat.min n (length l) + 1)) as [Hlt|Hge].
  - unfold keep_last. rewrite length_app. simpl length.
    replace (length l + 1 - n) with (S (length l - n)) by lia.
    rewrite <- tl_skipn, skipn_app.
    replace (length l - n - length l) with 0 by lia. reflexivity.
  - rewrite !keep_last_short; trivial; rewrite ?length_app; simpl; lia.
Qed.

End KeepLast.

(** ** The history window *)

Section History.

Context {num : Type} `{Number num}.

(** After any sequence of pushes from the empty tracker, each of the three
    lists is the window of the last 40 values pushed into it. *)
Lemma push_all_window (triples : list (num * num * num)) :
  push_all HistoricalLaneDataTracker_init triples =
  {| number_of_slopes_to_remember := 40;
     slopes := keep_last 40 (slopes_of triples);
     mean_x_values := keep_last 40 (xs_of triples);
     mean_y_values := keep_last 40 (ys_of triples) |}.
Proof.
  induction triples as [|[[x y] s] triples IH] using rev_ind.
  - reflexivity.
  - unfold push_all in *. rewrite fold_left_app. simpl fold_left. rewrite IH.
    unfold update, pop0, xs_of, ys_of, slopes_of.
    cbn [number_of_slopes_to_remember slopes mean_x_values mean_y_values fst snd].
    rewrite !map_app. cbn [map fst snd].
    rewrite !keep_last_snoc.
    rewrite !length_app, !keep_last_length, !length_map.
    destruct (40 <? _); reflexivity.
Qed.

Lemma push_all_short (triples : list (num * num * num)) :
  length triples <= 40 ->
  push_all HistoricalLaneDataTracker_init triples =
  {| number_of_slopes_to_remember := 40;
     slopes := slopes_of triples;
     mean_x_values := xs_of triples;
     mean_y_values := ys_of triples |}.
Proof.
  intros Hle. rewrite push_all_window.
  unfold xs_of, ys_of, slopes_of.
  rewrite !keep_last_short by (rewrite length_map; exact Hle).
  reflexivity.
Qed.

(** Up to 40 pushes: the three means are those of all the pushed values. *)
Lemma get_latest_lane_data_short (triples : list (num * num * num)) :
  1 <= length triples <= 40 ->
  get_latest_lane_data (push_all HistoricalLaneDataTracker_init triples) =
  Ok (exact_mean (xs_of triples), exact_mean (ys_of triples),
      exact_mean (slopes_of triples)).
Proof.
  intros [Hpos Hle]. rewrite push_all_short by exact Hle.
  unfold get_latest_lane_data, xs_of, ys_of, slopes_of.
  cbn [mean_x_values mean_y_values slopes].
  destruct triples as [|p triples]; [simpl in Hpos; lia|].
  reflexivity.
Qed.

(** C3: from the empty tracker, after every sequence of [update] calls each
    of the three lists holds at most 40 entries; after 45 calls each holds
    exactly 40 entries, the last 40 pushed, in the order they were pushed
    (the 5 oldest are gone). *)
Theorem history_window_bounded_fifo :
  (forall triples : list (num * num * num),
     let t := push_all HistoricalLaneDataTracker_init triples in
     length (slopes t) <= 40 /\
     length (mean_x_values t) <= 40 /\
     length (mean_y_values t) <= 40) /\
  (forall triples : list (num * num * num),
     length triples = 45 ->
     let t := push_all HistoricalLaneDataTracker_init triples in
     slopes t = skipn 5 (slopes_of triples) /\
     mean_x_values t = skipn 5 (xs_of triples) /\
     mean_y_values t = skipn 5 (ys_of triples) /\
     length (slopes t) = 40 /\
     length (mean_x_values t) = 40 /\
     length (mean_y_values t) = 40).
Proof.
  split; intros triples.
  - cbv zeta. rewrite push_all_window.
    cbn [slopes mean_x_values mean_y_values].
    rewrite !keep_last_length. lia.
  - intros H45. cbv zeta. rewrite push_all_window.
    cbn [slopes mean_x_values mean_y_values].
    unfold keep_last, xs_of, ys_of, slopes_of.
    rewrite !length_skipn, !length_map, H45.
    repeat split; reflexivity.
Qed.

End History.

(** ** The accumulator and the reconstruction *)

Section Accumulator.

Context {num : Type} `{Number num} `{!NumberLaws num}
  `{!AdditionCommutes num}.
Local Open Scope num_scope.

Lemma add_lines_snoc (p : LineProcessor num) (segs : list (Segment * num))
    (a : Segment * num) :
  add_lines p (segs ++ [a]) =
  (let '(x1, y1, x2, y2) := fst a in
   add_line (add_lines p segs) x1 y1 x2 y2 (snd a)).
Proof. unfold add_lines. rewrite fold_left_app. reflexivity. Qed.

Lemma nsum_snoc (l : list num) (a : num) : nsum (l ++ [a]) = nsum l + a.
Proof. unfold nsum. rewrite fold_left_app. reflexivity. Qed.

(** The four running sums after a sequence of [add_line] from a fresh
    processor are the four sums over the sequence. *)
Lemma add_lines_sums (r : TrackerRef) (segs : list (Segment * num)) :
  let p := add_lines (LineProcessor_init r) segs in
  total_length p = nsum (map length_of segs) /\
  sum_of_slopes p = nsum (map (fun a => snd a * length_of a) segs) /\
  sum_of_coordinates p =
    (nsum (map (fun a => mid_x a * length_of a) segs),
     nsum (map (fun a => mid_y a * length_of a) segs)) /\
  lane_data_tracker p = r.
Proof.
  cbv zeta. induction segs as [|a segs IH] using rev_ind.
  - repeat split.
  - destruct IH as (Ht & Hs & Hc & Hr).
    destruct a as [[[[x1 y1] x2] y2] s].
    rewrite add_lines_snoc, !map_app. cbn [map]. rewrite !nsum_snoc.
    unfold add_line, length_of, mid_x, mid_y, weighted_mid_point.
    cbn [fst snd total_length sum_of_slopes sum_of_coordinates lane_data_tracker].
    rewrite Ht, Hs, Hc. repeat split. exact Hr.
Qed.

(** What [get_mean_line] leaves in the store. *)
Lemma get_mean_line_store (p : LineProcessor num) (bottom_y top_y : Z)
    (g : Globals num) :
  fst (get_mean_line p bottom_y top_y g) =
  if total_length p =? zero then g else pushed p g.
Proof.
  unfold get_mean_line, pushed, aggregate, bind, lift, ret, call_update,
    call_get_latest_lane_data, truediv.
  destruct (total_length p =? zero); cbn [negb fst snd];
    match goal with
    | |- context [get_latest_lane_data ?t] =>
        destruct (get_latest_lane_data t) as [[[x y] s]|e]
    end; trivial;
    destruct (find_x2_from_slope x y bottom_y s); trivial;
    destruct (find_x2_from_slope x y top_y s); trivial.
Qed.

(** What [get_mean_line] returns: the line of the mean of the history it
    leaves. *)
Lemma get_mean_line_result (p : LineProcessor num) (bottom_y top_y : Z)
    (g : Globals num) :
  snd (get_mean_line p bottom_y top_y g) =
  rbind
    (get_latest_lane_data
       (deref (fst (get_mean_line p bottom_y top_y g)) (lane_data_tracker p)))
    (fun m => line_of_mean m bottom_y top_y).
Proof.
  rewrite get_mean_line_store.
  unfold get_mean_line, pushed, aggregate, line_of_mean, bind, lift, ret,
    call_update, call_get_latest_lane_data, truediv.
  destruct (total_length p =? zero); cbn [negb fst snd rbind];
    match goal with
    | |- context [get_latest_lane_data ?t] =>
        destruct (get_latest_lane_data t) as [[[x y] s]|e]
    end; cbn [rbind]; trivial;
    destruct (find_x2_from_slope x y bottom_y s); cbn [rbind]; trivial;
    destruct (find_x2_from_slope x y top_y s); trivial.
Qed.

Lemma find_x2_from_slope_ok (x1 y1 : num) (y2 : Z) (s : num) (x2 : Z) :
  (s =? zero) = false ->
  int (x1 - (y1 - of_int y2) / s) = Some x2 ->
  find_x2_from_slope x1 y1 y2 s = Ok x2.
Proof.
  intros Hs Hint. unfold find_x2_from_slope, truediv.
  rewrite Hs. cbn [rbind]. rewrite Hint. reflexivity.
Qed.

(** The length [add_line] computes, [math.sqrt(math.pow(y2 - y1, 2) +
    math.pow(x2 - x1, 2))], is the Euclidean length
    [sqrt((x2 - x1)^2 + (y2 - y1)^2)]. *)
Lemma line_length_euclidean (a : Segment * num) :
  length_of a = euclidean_length a.
Proof.
  destruct a as [[[[x1 y1] x2] y2] s].
  unfold length_of, euclidean_length, line_length, math_pow2. cbn [fst].
  rewrite (nadd_comm (of_int (y2 - y1) * of_int (y2 - y1))). reflexivity.
Qed.

(** C1: after any finite sequence of [add_line] calls on a fresh processor,
    [total_length] is the sum of the Euclidean lengths
    [sqrt((x2 - x1)^2 + (y2 - y1)^2)] of the segments; if it is positive,
    [get_mean_line] pushes to the history the three length-weighted means
    (sum of mid_x * len over sum of len, the same for mid_y and for the
    slope), [len] being that Euclidean length and [mid_x], [mid_y] the
    coordinate midpoints; if it is zero, nothing is pushed. *)
Theorem add_line_pushes_weighted_means (r : TrackerRef)
    (segs : list (Segment * num)) (bottom_y top_y : Z) (g : Globals num) :
  let p := add_lines (LineProcessor_init r) segs in
  let total := nsum (map euclidean_length segs) in
  total_length p = total /\
  ((zero <? total) = true ->
   fst (get_mean_line p bottom_y top_y g) =
   assign g r
     (update (deref g r)
        (nsum (map (fun a => mid_x a * euclidean_length a) segs) / total)
        (nsum (map (fun a => mid_y a * euclidean_length a) segs) / total)
        (nsum (map (fun a => snd a * euclidean_length a) segs) / total))) /\
  ((total =? zero) = true ->
   fst (get_mean_line p bottom_y top_y g) = g).
Proof.
  cbv zeta. destruct (add_lines_sums r segs) as (Ht & Hs & Hc & Hr).
  assert (Hlen : map length_of segs = map euclidean_length segs)
    by (apply map_ext; exact line_length_euclidean).
  assert (Hw : forall f : Segment * num -> num,
            map (fun a => f a * length_of a) segs =
            map (fun a => f a * euclidean_length a) segs)
    by (intros f; apply map_ext; intros a;
        rewrite line_length_euclidean; reflexivity).
  rewrite Hlen in Ht. rewrite (Hw snd) in Hs.
  rewrite (Hw mid_x), (Hw mid_y) in Hc.
  split; [exact Ht|]. rewrite get_mean_line_store, Ht. split; intros Hz.
  - rewrite (nltb_zero_neqb _ Hz).
    unfold pushed, aggregate. rewrite Ht, Hs, Hc, Hr. reflexivity.
  - rewrite Hz. reflexivity.
Qed.

(** The amended C9: when the accumulator is empty ([total_length == 0])
    [get_mean_line] pushes nothing, so a second call in succession meets the
    same history and returns what the first returned. *)
Theorem get_mean_line_twice_unchanged_history (p : LineProcessor num)
    (bottom_y top_y : Z) (g : Globals num) :
  (total_length p =? zero) = true ->
  fst (get_mean_line p bottom_y top_y g) = g /\
  get_mean_line p bottom_y top_y (fst (get_mean_line p bottom_y top_y g)) =
  get_mean_line p bottom_y top_y g.
Proof.
  intros Hz.
  assert (Hg : fst (get_mean_line p bottom_y top_y g) = g)
    by (rewrite get_mean_line_store, Hz; reflexivity).
  split; [exact Hg | rewrite Hg; reflexivity].
Qed.

(** The amended C6: a lane with no segment in the frame ([total_length == 0])
    whose history has the mean [(mx, my, ms)], with [ms] not zero and both
    abscissae convertible by [int()], leaves the history as it is and
    returns the line reconstructed from that mean. *)
Theorem get_mean_line_falls_back_on_history (p : LineProcessor num)
    (bottom_y top_y : Z) (g : Globals num) (mx my ms : num)
    (bottom_x top_x : Z) :
  (total_length p =? zero) = true ->
  get_latest_lane_data (deref g (lane_data_tracker p)) = Ok (mx, my, ms) ->
  (ms =? zero) = false ->
  int (mx - (my - of_int bottom_y) / ms) = Some bottom_x ->
  int (mx - (my - of_int top_y) / ms) = Some top_x ->
  get_mean_line p bottom_y top_y g = (g, Ok (bottom_x, bottom_y, top_x, top_y)).
Proof.
  intros Hz Hmean Hs Hb Ht.
  assert (Hg : fst (get_mean_line p bottom_y top_y g) = g)
    by (rewrite get_mean_line_store, Hz; reflexivity).
  rewrite (surjective_pairing (get_mean_line p bottom_y top_y g)).
  rewrite get_mean_line_result, Hg, Hmean. cbn [rbind line_of_mean].
  rewrite (find_x2_from_slope_ok _ _ _ _ Hs Hb).
  rewrite (find_x2_from_slope_ok _ _ _ _ Hs Ht). reflexivity.
Qed.

(** The formula of the reconstruction: whenever the mean of the history is
    [(mx, my, ms)] with [ms] not zero, the line returned is
    [(int(mx - (my - bottom_y) / ms), bottom_y, int(mx - (my - top_y) / ms),
    top_y)]. *)
Lemma get_mean_line_endpoints (p : LineProcessor num)
    (bottom_y top_y : Z) (g : Globals num) (mx my ms : num)
    (bottom_x top_x : Z) :
  get_latest_lane_data
    (deref (fst (get_mean_line p bottom_y top_y g)) (lane_data_tracker p))
    = Ok (mx, my, ms) ->
  (ms =? zero) = false ->
  int (mx - (my - of_int bottom_y) / ms) = Some bottom_x ->
  int (mx - (my - of_int top_y) / ms) = Some top_x ->
  snd (get_mean_line p bottom_y top_y g) =
  Ok (bottom_x, bottom_y, top_x, top_y).
Proof.
  intros Hmean Hs Hb Ht.
  rewrite get_mean_line_result, Hmean. cbn [rbind line_of_mean].
  rewrite (find_x2_from_slope_ok _ _ _ _ Hs Hb).
  rewrite (find_x2_from_slope_ok _ _ _ _ Hs Ht). reflexivity.
Qed.

End Accumulator.

(** ** The classifier and the frame *)

Section Classifier.

Context {num : Type} `{Number num} `{!NumberLaws num}.
Local Open Scope num_scope.

Lemma for_each_invariant {A S : Type} (P : S -> Prop)
    (body : S -> A -> result S) :
  (forall s a s', P s -> body s a = Ok s' -> P s') ->
  forall l s s', P s -> for_each body l s = Ok s' -> P s'.
Proof.
  intros Hbody l. induction l as [|a l IH]; intros s s' Hs Hrun.
  - injection Hrun as <-. exact Hs.
  - cbn [for_each] in Hrun.
    destruct (body s a) as [s1|e] eqn:Hstep; [|discriminate].
    exact (IH s1 s' (Hbody s a s1 Hs Hstep) Hrun).
Qed.

Lemma for_each_total {A S : Type} (body : S -> A -> result S) :
  (forall s a, exists s', body s a = Ok s') ->
  forall l s, exists s', for_each body l s = Ok s'.
Proof.
  intros Hbody l. induction l as [|a l IH]; intros s.
  - exists s. reflexivity.
  - destruct (Hbody s a) as [s1 Hs1]. cbn [for_each]. rewrite Hs1. apply IH.
Qed.

Lemma slope_vertical (x1 y1 x2 y2 : Z) :
  x2 = x1 -> slope x1 y1 x2 y2 = Ok one.
Proof.
  intros ->. unfold slope. now rewrite Z.sub_diag.
Qed.

Lemma slope_oblique (x1 y1 x2 y2 : Z) :
  x2 <> x1 ->
  slope x1 y1 x2 y2 = Ok (of_int (y2 - y1) / of_int (x2 - x1)).
Proof.
  intros Hne. unfold slope, int_truediv.
  destruct (Z.eqb_spec 0 (x2 - x1)) as [Heq|_]; [lia|].
  destruct (Z.eqb_spec (x2 - x1) 0) as [Heq|_]; [lia|]. reflexivity.
Qed.

Lemma slope_total (x1 y1 x2 y2 : Z) : exists s, slope x1 y1 x2 y2 = Ok s.
Proof.
  destruct (Z.eq_dec x2 x1) as [Heq|Hne].
  - eexists. exact (slope_vertical y1 y2 Heq).
  - eexists. exact (slope_oblique y1 y2 Hne).
Qed.

Lemma classify_total (ps : LineProcessor num * LineProcessor num)
    (seg : Segment) : exists ps', classify ps seg = Ok ps'.
Proof.
  destruct seg as [[[x1 y1] x2] y2]. unfold classify.
  destruct (slope_total x1 y1 x2 y2) as [s ->]. cbn [rbind].
  destruct (s <? zero); eexists; reflexivity.
Qed.

Lemma classify_all_total (lines : list (list Segment)) :
  exists ps, classify_all lines = Ok ps.
Proof.
  unfold classify_all. apply for_each_total.
  intros s line. apply for_each_total. apply classify_total.
Qed.

(** An invariant of the loop body is an invariant of the two nested loops. *)
Lemma classify_all_invariant
    (P : LineProcessor num * LineProcessor num -> Prop) :
  P (LineProcessor_init GlobalLeft, LineProcessor_init GlobalRight) ->
  (forall ps seg ps', P ps -> classify ps seg = Ok ps' -> P ps') ->
  forall lines ps, classify_all lines = Ok ps -> P ps.
Proof.
  intros Hinit Hbody lines ps. unfold classify_all.
  apply for_each_invariant with (P := P); [|exact Hinit].
  intros s line s'. apply for_each_invariant. exact Hbody.
Qed.

(** The left processor stays bound to the left tracker and the right one to
    the right tracker. *)
Lemma classify_all_trackers (lines : list (list Segment))
    (lp rp : LineProcessor num) :
  classify_all lines = Ok (lp, rp) ->
  lane_data_tracker lp = GlobalLeft /\ lane_data_tracker rp = GlobalRight.
Proof.
  apply (classify_all_invariant
           (fun ps => lane_data_tracker (fst ps) = GlobalLeft /\
                      lane_data_tracker (snd ps) = GlobalRight)).
  - split; reflexivity.
  - intros [l r] [[[x1 y1] x2] y2] ps' [Hl Hr]. unfold classify.
    destruct (slope x1 y1 x2 y2) as [s|e]; [|discriminate]. cbn [rbind].
    destruct (s <? zero); intros [= <-]; split; assumption.
Qed.

(** C4: the slope of a segment is [(y2 - y1) / (x2 - x1)] when [x2 != x1] and
    1 when [x2 == x1], and computing it never raises; the segment is added
    to the left processor when the slope is [< 0] and to the right one
    otherwise, the other processor being left as it is; a vertical segment
    goes to the right. *)
Theorem slope_classifies_every_segment (x1 y1 x2 y2 : Z)
    (ps : LineProcessor num * LineProcessor num) :
  (x2 <> x1 ->
   slope x1 y1 x2 y2 = Ok (of_int (y2 - y1) / of_int (x2 - x1))) /\
  (x2 = x1 -> slope x1 y1 x2 y2 = Ok one) /\
  exists s : num,
    slope x1 y1 x2 y2 = Ok s /\
    ((s <? zero) = true ->
     classify ps (x1, y1, x2, y2) =
     Ok (add_line (fst ps) x1 y1 x2 y2 s, snd ps)) /\
    ((s <? zero) = false ->
     classify ps (x1, y1, x2, y2) =
     Ok (fst ps, add_line (snd ps) x1 y1 x2 y2 s)) /\
    (x2 = x1 -> s = one /\ (s <? zero) = false).
Proof.
  split; [apply slope_oblique|]. split; [apply slope_vertical|].
  destruct (slope_total x1 y1 x2 y2) as [s Hs]. exists s.
  split; [exact Hs|]. unfold classify. rewrite Hs. cbn [rbind].
  split; [|split].
  - intros ->. reflexivity.
  - intros ->. reflexivity.
  - intros Heq. rewrite (slope_vertical y1 y2 Heq) in Hs.
    injection Hs as <-. split; [reflexivity | apply nltb_one_zero].
Qed.

Lemma deref_assign_other (g : Globals num) (r r' : TrackerRef)
    (t : HistoricalLaneDataTracker num) :
  r <> r' -> deref (assign g r t) r' = deref g r'.
Proof. destruct r, r'; intros Hne; try congruence; reflexivity. Qed.

Lemma deref_assign_same (g : Globals num) (r : TrackerRef)
    (t : HistoricalLaneDataTracker num) :
  deref (assign g r t) r = t.
Proof. destruct r; reflexivity. Qed.

(** A call of [get_mean_line] leaves the other lane's tracker alone. *)
Lemma get_mean_line_other_tracker (p : LineProcessor num) (bottom_y top_y : Z)
    (g : Globals num) (r' : TrackerRef) :
  lane_data_tracker p <> r' ->
  deref (fst (get_mean_line p bottom_y top_y g)) r' = deref g r'.
Proof.
  intros Hne. rewrite get_mean_line_store.
  destruct (total_length p =? zero); [reflexivity|].
  unfold pushed. destruct (aggregate p) as [[x y] s].
  apply deref_assign_other. exact Hne.
Qed.

Lemma get_mean_line_empty (p : LineProcessor num) (bottom_y top_y : Z)
    (g : Globals num) :
  (total_length p =? zero) = true ->
  empty_history (deref g (lane_data_tracker p)) ->
  get_mean_line p bottom_y top_y g = (g, Raise StatisticsError).
Proof.
  intros Hz (_ & Hx & _).
  rewrite (surjective_pairing (get_mean_line p bottom_y top_y g)).
  rewrite get_mean_line_result, get_mean_line_store, Hz.
  unfold get_latest_lane_data. rewrite Hx. reflexivity.
Qed.

(** The amended C7: with no entry in the history, [get_latest_lane_data]
    raises [StatisticsError] and returns no default; [get_mean_line] of a
    lane without segments lets the exception through, leaving the history
    empty; and so does [draw_lines], which returns no line at all: at once
    when it is the left lane, after the left line has been computed when it
    is the right lane. *)
Theorem empty_history_query_raises (g : Globals num) (r : TrackerRef) :
  empty_history (deref g r) ->
  get_latest_lane_data (deref g r) = Raise StatisticsError /\
  (forall (p : LineProcessor num) (bottom_y top_y : Z),
     lane_data_tracker p = r ->
     (total_length p =? zero) = true ->
     get_mean_line p bottom_y top_y g = (g, Raise StatisticsError)) /\
  (forall (lines : list (list Segment)) (area_of_interest : Polygon)
          (lp rp : LineProcessor num),
     classify_all lines = Ok (lp, rp) ->
     (r = GlobalLeft -> (total_length lp =? zero) = true ->
      draw_lines lines area_of_interest g = (g, Raise StatisticsError)) /\
     (r = GlobalRight -> (total_length rp =? zero) = true ->
      forall left_line,
        snd (get_mean_line lp (snd (vertex0 area_of_interest))
               (snd (vertex1 area_of_interest)) g) = Ok left_line ->
        snd (draw_lines lines area_of_interest g) = Raise StatisticsError)).
Proof.
  intros Hempty. split; [|split].
  - destruct Hempty as (_ & Hx & _).
    unfold get_latest_lane_data. rewrite Hx. reflexivity.
  - intros p bottom_y top_y <- Hz. apply get_mean_line_empty; assumption.
  - intros lines area lp rp Hcl.
    destruct (classify_all_trackers _ Hcl) as [Hl Hr].
    unfold draw_lines, bind, lift. rewrite Hcl. split.
    + intros -> Hz. rewrite get_mean_line_empty; trivial.
      rewrite Hl. exact Hempty.
    + intros -> Hz left_line Hleft.
      destruct (get_mean_line lp _ _ g) as [g1 res] eqn:Hcall.
      cbn [snd] in Hleft. subst res.
      rewrite get_mean_line_empty; trivial.
      rewrite Hr. replace g1 with (fst (get_mean_line lp
        (snd (vertex0 area)) (snd (vertex1 area)) g)) by (rewrite Hcall; trivial).
      rewrite get_mean_line_other_tracker; [exact Hempty|].
      rewrite Hl. discriminate.
Qed.

Lemma draw_lines_result (lines : list (list Segment))
    (area_of_interest : Polygon) (lp rp : LineProcessor num) (g : Globals num)
    (left_line right_line : Z * Z * Z * Z) :
  classify_all lines = Ok (lp, rp) ->
  snd (get_mean_line lp (snd (vertex0 area_of_interest))
         (snd (vertex1 area_of_interest)) g) = Ok left_line ->
  snd (get_mean_line rp (snd (vertex3 area_of_interest))
         (snd (vertex2 area_of_interest))
         (fst (get_mean_line lp (snd (vertex0 area_of_interest))
                 (snd (vertex1 area_of_interest)) g))) = Ok right_line ->
  snd (draw_lines lines area_of_interest g) = Ok (left_line, right_line).
Proof.
  intros Hcl Hleft Hright. unfold draw_lines, bind, lift, ret. rewrite Hcl.
  destruct (get_mean_line lp _ _ g) as [g1 res1]. cbn [fst snd] in *.
  subst res1.
  destruct (get_mean_line rp _ _ g1) as [g2 res2]. cbn [snd] in *.
  subst res2. reflexivity.
Qed.

End Classifier.

(** ** Exact arithmetic *)

Section Exact.

Local Open Scope R_scope.

(** C2: for [1 <= K <= 40], after [K] pushes into the empty tracker
    [get_latest_lane_data] returns, for each of the three components, the
    sum of the [K] pushed values divided by [K]. *)
Theorem get_latest_lane_data_arithmetic_mean (triples : list (R * R * R)) :
  (1 <= length triples <= 40)%nat ->
  get_latest_lane_data (push_all HistoricalLaneDataTracker_init triples) =
  Ok (Rsum (xs_of triples) / INR (length triples),
      Rsum (ys_of triples) / INR (length triples),
      Rsum (slopes_of triples) / INR (length triples)).
Proof.
  intros HK. rewrite (get_latest_lane_data_short _ HK).
  cbn [exact_mean ExactArithmetic]. unfold Rmean, xs_of, ys_of, slopes_of.
  rewrite !length_map. reflexivity.
Qed.

Lemma nsum_snoc_R (l : list R) (a : R) : nsum (l ++ [a]) = nsum l + a.
Proof. unfold nsum. rewrite fold_left_app. reflexivity. Qed.

(** Over the reals the Euclidean length reads
    [sqrt((x2 - x1)^2 + (y2 - y1)^2)] on the coordinates themselves. *)
Lemma euclidean_length_exact (x1 y1 x2 y2 : Z) (s : R) :
  euclidean_length ((x1, y1, x2, y2), s) =
  R_sqrt.sqrt (Rsqr (IZR x2 - IZR x1) + Rsqr (IZR y2 - IZR y1)).
Proof.
  unfold euclidean_length, Rsqr. cbn [fst nsqrt nadd nmul of_int ExactArithmetic].
  rewrite !minus_IZR. reflexivity.
Qed.

(** A segment that is not vertical has a positive length. *)
Lemma line_length_pos (x1 y1 x2 y2 : Z) :
  x2 <> x1 -> 0 < line_length (num := R) x1 y1 x2 y2.
Proof.
  intros Hne. unfold line_length, math_pow2. cbn [nsqrt nadd nmul of_int ExactArithmetic].
  apply sqrt_lt_R0.
  assert (Hd : IZR (x2 - x1) <> 0) by (apply not_0_IZR; lia).
  nra.
Qed.

(** The weighted sum of the slopes lies between the extreme slopes times the
    total weight. *)
Lemma weighted_sum_bounds (lo hi : R) (segs : list (Segment * R)) :
  (forall a, In a segs -> lo <= snd a <= hi) ->
  (forall a, In a segs -> 0 < length_of a) ->
  lo * nsum (map length_of segs)
    <= nsum (map (fun a => (snd a * length_of a)%num) segs)
    <= hi * nsum (map length_of segs) /\
  (segs <> [] -> 0 < nsum (map length_of segs)) /\
  0 <= nsum (map length_of segs).
Proof.
  induction segs as [|a segs IH] using rev_ind; intros Hs Hl.
  - unfold nsum. cbn. split; [lra|]. split; [congruence | lra].
  - destruct IH as (Hb & _ & Hnn).
    + intros b Hb. apply Hs. apply in_or_app. now left.
    + intros b Hb. apply Hl. apply in_or_app. now left.
    + rewrite !map_app. cbn [map]. rewrite !nsum_snoc_R.
      assert (Ha : In a (segs ++ [a])) by (apply in_or_app; right; now left).
      pose proof (Hs a Ha) as Hsa. pose proof (Hl a Ha) as Hla.
      set (T := nsum (map length_of segs)) in *.
      set (W := nsum (map (fun b => (snd b * length_of b)%num) segs)) in *.
      clearbody T W. cbn [nmul ExactArithmetic].
      split; [split; nra|]. split; [intros _; lra | lra].
Qed.

(** The exact reading of C8: for a non-empty sequence of segments of
    positive length, the weighted mean slope [sum_of_slopes / total_length]
    lies between the least and the greatest of the slopes passed. *)
Lemma weighted_mean_slope_exact (r : TrackerRef) (segs : list (Segment * R)) :
  segs <> [] ->
  (forall a, In a segs -> 0 < length_of a) ->
  let p := add_lines (LineProcessor_init r) segs in
  MinRlist (map snd segs) <= sum_of_slopes p / total_length p
    <= MaxRlist (map snd segs).
Proof.
  intros Hne Hlen. cbv zeta.
  destruct (add_lines_sums r segs) as (Ht & Hs & _). rewrite Ht, Hs.
  destruct (weighted_sum_bounds (lo := MinRlist (map snd segs))
              (hi := MaxRlist (map snd segs)) segs)
    as ([Hlo Hhi] & Hpos & _).
  - intros a Ha. split.
    + apply MinRlist_P1. now apply in_map.
    + apply MaxRlist_P1. now apply in_map.
  - exact Hlen.
  - specialize (Hpos Hne).
    set (T := nsum (map length_of segs)) in *.
    set (S := nsum (map (fun a => (snd a * length_of a)%num) segs)) in *.
    assert (Hq : S / T * T = S) by (field; lra).
    split; apply Rmult_le_reg_r with T; trivial; rewrite Hq; lra.
Qed.

(** *** The left lane *)

Lemma slope_negative_oblique (x1 y1 x2 y2 : Z) (s : R) :
  slope x1 y1 x2 y2 = Ok s -> s < 0 -> x2 <> x1.
Proof.
  intros Hs Hneg Heq. rewrite (slope_vertical y1 y2 Heq) in Hs.
  injection Hs as <-. cbn in Hneg. lra.
Qed.

Lemma add_line_left_sums (p : LineProcessor R) (x1 y1 x2 y2 : Z) (s : R) :
  left_sums p -> s < 0 -> x2 <> x1 ->
  left_sums (add_line p x1 y1 x2 y2 s).
Proof.
  intros Hp Hs Hne. pose proof (line_length_pos y1 y2 Hne) as Hlen.
  right. unfold add_line.
  cbn [total_length sum_of_slopes nadd nmul ExactArithmetic].
  destruct Hp as [[-> ->]|[Ht Hss]]; split; nra.
Qed.

(** What one turn of the loop does to the left processor. *)
Lemma classify_left (ps ps' : LineProcessor R * LineProcessor R)
    (seg : Segment) :
  classify ps seg = Ok ps' ->
  fst ps' = fst ps \/
  exists s : R,
    let '(x1, y1, x2, y2) := seg in
    slope x1 y1 x2 y2 = Ok s /\ s < 0 /\ 0 < line_length x1 y1 x2 y2 /\
    fst ps' = add_line (fst ps) x1 y1 x2 y2 s.
Proof.
  destruct seg as [[[x1 y1] x2] y2]. unfold classify.
  destruct (slope x1 y1 x2 y2) as [s|e] eqn:Hs; [|discriminate].
  cbn [rbind nltb ExactArithmetic zero].
  destruct (Rltb s 0) eqn:Hlt; intros [= <-]; [right | now left].
  apply Rltb_true in Hlt. exists s. repeat split; trivial.
  apply line_length_pos. eapply slope_negative_oblique; eassumption.
Qed.

Lemma classify_all_left_sums (lines : list (list Segment))
    (lp rp : LineProcessor R) :
  classify_all lines = Ok (lp, rp) -> left_sums lp.
Proof.
  apply (classify_all_invariant (fun ps => left_sums (fst ps))).
  - left. split; reflexivity.
  - intros ps [[[x1 y1] x2] y2] ps' Hps Hstep.
    destruct (classify_left _ _ Hstep) as [->|(s & Hs & Hneg & _ & ->)];
      trivial.
    apply add_line_left_sums; trivial.
    eapply slope_negative_oblique; eassumption.
Qed.

Lemma Forall_tl {A : Type} (P : A -> Prop) (l : list A) :
  Forall P l -> Forall P (tl l).
Proof. intros Hl. destruct Hl; [constructor | assumption]. Qed.

Lemma update_negative_history (t : HistoricalLaneDataTracker R) (x y s : R) :
  negative_history t -> s < 0 -> negative_history (update t x y s).
Proof.
  intros Ht Hs. unfold negative_history, update, pop0 in *.
  assert (Happ : Forall (fun s => s < 0) (slopes t ++ [s]))
    by (apply Forall_app; split; [exact Ht | repeat constructor; exact Hs]).
  destruct (_ <? _)%nat; cbn [slopes]; [apply Forall_tl|]; exact Happ.
Qed.

(** The left call of [get_mean_line] keeps the history negative. *)
Lemma get_mean_line_negative_history (p : LineProcessor R)
    (bottom_y top_y : Z) (g : Globals R) :
  left_sums p ->
  negative_history (deref g (lane_data_tracker p)) ->
  negative_history
    (deref (fst (get_mean_line p bottom_y top_y g)) (lane_data_tracker p)).
Proof.
  intros Hp Hg. rewrite get_mean_line_store.
  cbn [neqb zero ExactArithmetic].
  destruct (Reqb (total_length p) 0) eqn:Hz; [exact Hg|].
  apply Reqb_false in Hz. unfold pushed, aggregate.
  rewrite deref_assign_same. apply update_negative_history; [exact Hg|].
  destruct Hp as [[Ht _]|[Ht Hs]]; [contradiction|].
  cbn [ndiv ExactArithmetic].
  apply Rmult_lt_reg_r with (total_length p); [exact Ht|].
  replace (sum_of_slopes p / total_length p * total_length p)
    with (sum_of_slopes p) by (field; lra).
  lra.
Qed.

Lemma Rsum_negative (l : list R) :
  l <> [] -> Forall (fun s => s < 0) l -> Rsum l < 0.
Proof.
  intros Hne Hl. induction Hl as [|a l Ha Hl IH]; [congruence|].
  unfold Rsum in *. cbn [fold_right].
  destruct l as [|b l]; [cbn; lra|].
  assert (fold_right Rplus 0 (b :: l) < 0) by (apply IH; discriminate). lra.
Qed.

Lemma Rmean_negative (l : list R) :
  l <> [] -> Forall (fun s => s < 0) l -> Rmean l < 0.
Proof.
  intros Hne Hl. unfold Rmean.
  assert (Hn : 0 < INR (length l))
    by (apply lt_0_INR; destruct l; [congruence | cbn; lia]).
  pose proof (Rsum_negative Hne Hl) as Hs.
  apply Rmult_lt_reg_r with (INR (length l)); [exact Hn|].
  replace (Rsum l / INR (length l) * INR (length l)) with (Rsum l)
    by (field; lra).
  lra.
Qed.

(** The mean slope of a negative history is negative. *)
Lemma get_latest_lane_data_negative (t : HistoricalLaneDataTracker R)
    (mx my ms : R) :
  negative_history t ->
  get_latest_lane_data t = Ok (mx, my, ms) -> ms < 0.
Proof.
  intros Ht. unfold get_latest_lane_data.
  destruct (statistics_mean (mean_x_values t)); [|discriminate].
  destruct (statistics_mean (mean_y_values t)); [|discriminate].
  cbn [rbind]. unfold statistics_mean.
  destruct (slopes t) as [|s l] eqn:Hsl; [discriminate|].
  cbn [rbind]. intros [= _ _ <-]. cbn [exact_mean ExactArithmetic].
  apply Rmean_negative; [discriminate|]. rewrite <- Hsl. exact Ht.
Qed.

(** With a negative mean slope, no division by zero. *)
Lemma line_of_mean_negative_slope (mx my ms : R) (bottom_y top_y : Z) :
  ms < 0 ->
  exists bottom_x top_x : Z,
    line_of_mean (mx, my, ms) bottom_y top_y =
    Ok (bottom_x, bottom_y, top_x, top_y).
Proof.
  intros Hms. unfold line_of_mean, find_x2_from_slope, truediv.
  cbn [neqb zero int ExactArithmetic].
  assert (Hz : Reqb ms 0 = false) by (apply Reqb_false; lra).
  rewrite Hz. cbn [rbind]. eauto.
Qed.

Lemma draw_lines_left_tracker (lines : list (list Segment))
    (area_of_interest : Polygon) (lp rp : LineProcessor R) (g : Globals R) :
  classify_all lines = Ok (lp, rp) ->
  deref (fst (draw_lines lines area_of_interest g)) GlobalLeft =
  deref (fst (get_mean_line lp (snd (vertex0 area_of_interest))
                (snd (vertex1 area_of_interest)) g)) GlobalLeft.
Proof.
  intros Hcl. destruct (classify_all_trackers _ Hcl) as [_ Hr].
  unfold draw_lines, bind, lift, ret. rewrite Hcl.
  destruct (get_mean_line lp _ _ g) as [g1 [left_line|e]]; [|reflexivity].
  pose proof (get_mean_line_other_tracker rp (snd (vertex3 area_of_interest))
                (snd (vertex2 area_of_interest)) g1 (r' := GlobalLeft)) as Hother.
  destruct (get_mean_line rp _ _ g1) as [g2 [right_line|e]];
    cbn [fst] in *; apply Hother; rewrite Hr; discriminate.
Qed.

(** Over a whole session the left history stays negative. *)
Lemma run_frames_negative_history (frames : list Frame) (g : Globals R) :
  negative_history (deref g GlobalLeft) ->
  negative_history (deref (run_frames frames g) GlobalLeft).
Proof.
  revert g. induction frames as [|[lines area] frames IH]; intros g Hg.
  - exact Hg.
  - unfold run_frames in *. cbn [fold_left fst snd]. apply IH.
    destruct (classify_all_total (num := R) lines) as [[lp rp] Hcl].
    rewrite (draw_lines_left_tracker _ area g Hcl).
    destruct (classify_all_trackers _ Hcl) as [Hl _].
    rewrite <- Hl. apply get_mean_line_negative_history.
    + exact (classify_all_left_sums _ Hcl).
    + rewrite Hl. exact Hg.
Qed.

Lemma get_latest_lane_data_raises (t : HistoricalLaneDataTracker R) (e : exn) :
  get_latest_lane_data t = Raise e -> e = StatisticsError.
Proof.
  unfold get_latest_lane_data, statistics_mean.
  destruct (mean_x_values t); cbn [rbind]; [congruence|].
  destruct (mean_y_values t); cbn [rbind]; [congruence|].
  destruct (slopes t); cbn [rbind]; congruence.
Qed.

(** *** Evaluation on a fresh session *)

Lemma Rtrunc_IZR (z : Z) : Rtrunc (IZR z) = z.
Proof.
  unfold Rtrunc. destruct (Rle_dec 0 (IZR z)) as [_|_].
  - symmetry. apply Int_part_spec. lra.
  - assert (Hopp : Int_part (- IZR z) = (- z)%Z)
      by (symmetry; apply Int_part_spec; rewrite opp_IZR; lra).
    rewrite Hopp. lia.
Qed.

Lemma Rmean_singleton (a : R) : Rmean [a] = a.
Proof. unfold Rmean, Rsum. cbn. field. Qed.

(** The first call of [get_mean_line] on a lane whose history is still
    empty, for a processor that got a segment: the history then holds the
    aggregate alone, which is its own mean. *)
Lemma get_mean_line_first_call (p : LineProcessor R) (bottom_y top_y : Z)
    (g : Globals R) :
  deref g (lane_data_tracker p) = HistoricalLaneDataTracker_init ->
  total_length p <> 0 ->
  get_latest_lane_data
    (deref (fst (get_mean_line p bottom_y top_y g)) (lane_data_tracker p))
    = Ok (aggregate p) /\
  snd (get_mean_line p bottom_y top_y g) =
  line_of_mean (aggregate p) bottom_y top_y.
Proof.
  intros Hinit Hne. apply Reqb_false in Hne.
  assert (Hmean : get_latest_lane_data
            (deref (fst (get_mean_line p bottom_y top_y g))
               (lane_data_tracker p)) = Ok (aggregate p)).
  { rewrite get_mean_line_store. cbn [neqb zero ExactArithmetic].
    rewrite Hne. unfold pushed. destruct (aggregate p) as [[x y] s].
    rewrite deref_assign_same, Hinit. cbn.
    rewrite !Rmean_singleton. reflexivity. }
  split; [exact Hmean|].
  rewrite get_mean_line_result, Hmean. reflexivity.
Qed.

Lemma find_x2_from_slope_exact (x1 y1 : R) (y2 : Z) (s : R) (x2 : Z) :
  s <> 0 -> x1 - (y1 - IZR y2) / s = IZR x2 ->
  find_x2_from_slope x1 y1 y2 s = Ok x2.
Proof.
  intros Hs Hx. apply find_x2_from_slope_ok.
  - apply Reqb_false. exact Hs.
  - cbn [int nsub ndiv of_int ExactArithmetic]. rewrite Hx, Rtrunc_IZR.
    reflexivity.
Qed.

Lemma horizontal_right_classified :
  classify_all [[(0, 5, 10, 5)%Z]] =
  Ok (LineProcessor_init GlobalLeft, horizontal_right).
Proof.
  unfold classify_all. cbn [for_each]. unfold classify, slope, int_truediv.
  change (10 - 0)%Z with 10%Z. change (5 - 5)%Z with 0%Z.
  cbn [Z.eqb rbind nltb ndiv of_int zero ExactArithmetic].
  assert (Hge : Rltb (0 / 10) 0 = false) by (apply Rltb_false; lra).
  rewrite Hge. reflexivity.
Qed.

Lemma horizontal_right_aggregate :
  total_length horizontal_right <> 0 /\
  snd (aggregate horizontal_right) = 0.
Proof.
  assert (Hlen : 0 < line_length (num := R) 0 5 10 5)
    by (apply line_length_pos; lia).
  unfold aggregate, horizontal_right, add_line.
  cbn [total_length sum_of_slopes sum_of_coordinates fst snd LineProcessor_init
       nadd nmul ndiv zero ExactArithmetic].
  split; [lra|]. field. lra.
Qed.

(** C10: in [draw_lines] a segment goes to the left processor only with a
    negative slope, and then it has a positive length; so, over any session
    started on empty trackers, every slope in the left history is negative,
    the mean slope of the left history is negative whenever it is defined,
    and the left call of [get_mean_line] never divides by zero.  The right
    lane has no such guarantee: one horizontal segment gives its history the
    mean slope 0 and its call of [get_mean_line] divides by zero. *)
Theorem left_lane_mean_slope_never_zero :
  (forall (ps ps' : LineProcessor R * LineProcessor R) (seg : Segment),
     classify ps seg = Ok ps' ->
     fst ps' = fst ps \/
     exists s : R,
       let '(x1, y1, x2, y2) := seg in
       slope x1 y1 x2 y2 = Ok s /\ s < 0 /\ 0 < line_length x1 y1 x2 y2 /\
       fst ps' = add_line (fst ps) x1 y1 x2 y2 s) /\
  (forall frames : list Frame,
     let g : Globals R := run_frames frames initial_globals in
     Forall (fun s => s < 0) (slopes (global_left_lane_slope_holder g)) /\
     (forall mx my ms : R,
        get_latest_lane_data (global_left_lane_slope_holder g)
          = Ok (mx, my, ms) -> ms < 0) /\
     (forall (lines : list (list Segment)) (lp rp : LineProcessor R)
             (bottom_y top_y : Z),
        classify_all lines = Ok (lp, rp) ->
        snd (get_mean_line lp bottom_y top_y g) <> Raise ZeroDivisionError)) /\
  (exists (seg : Segment) (lp rp : LineProcessor R),
     classify_all [[seg]] = Ok (lp, rp) /\
     forall bottom_y top_y : Z,
       (exists mx my : R,
          get_latest_lane_data
            (global_right_lane_slope_holder
               (fst (get_mean_line rp bottom_y top_y initial_globals)))
          = Ok (mx, my, 0)) /\
       snd (get_mean_line rp bottom_y top_y initial_globals)
       = Raise ZeroDivisionError).
Proof.
  split; [exact classify_left|]. split.
  - intros frames g.
    assert (Hg : negative_history (deref g GlobalLeft))
      by (apply run_frames_negative_history; constructor).
    split; [exact Hg|]. split.
    + intros mx my ms. apply get_latest_lane_data_negative. exact Hg.
    + intros lines lp rp bottom_y top_y Hcl.
      destruct (classify_all_trackers _ Hcl) as [Hl _].
      rewrite get_mean_line_result.
      pose proof (@get_mean_line_negative_history lp bottom_y top_y g
                    (classify_all_left_sums _ Hcl)) as Hneg.
      rewrite Hl in *. specialize (Hneg Hg).
      destruct (get_latest_lane_data _) as [[[mx my] ms]|e] eqn:Hmean.
      * pose proof (get_latest_lane_data_negative Hneg Hmean) as Hms.
        destruct (line_of_mean_negative_slope mx my bottom_y top_y Hms)
          as (bx & tx & Hline).
        cbn [rbind]. rewrite Hline. discriminate.
      * apply get_latest_lane_data_raises in Hmean. subst e.
        cbn [rbind]. discriminate.
  - exists (0, 5, 10, 5)%Z, (LineProcessor_init GlobalLeft), horizontal_right.
    split; [exact horizontal_right_classified|].
    intros bottom_y top_y.
    destruct horizontal_right_aggregate as [Hne Hs].
    destruct (@get_mean_line_first_call horizontal_right bottom_y top_y
                initial_globals eq_refl Hne) as [Hmean Hres].
    destruct (aggregate horizontal_right) as [[x y] s]. cbn [snd] in Hs.
    subst s. split.
    + exists x, y. exact Hmean.
    + rewrite Hres. unfold line_of_mean, find_x2_from_slope, truediv.
      cbn [neqb zero ExactArithmetic].
      assert (Hz : Reqb 0 0 = true) by (now apply Reqb_true).
      rewrite Hz. reflexivity.
Qed.

(** The aggregate of a single segment that is not vertical: its midpoint
    and the slope passed for it. *)
Lemma aggregate_single (r : TrackerRef) (x1 y1 x2 y2 : Z) (s : R) :
  x2 <> x1 ->
  let p := add_line (LineProcessor_init r) x1 y1 x2 y2 s in
  total_length p <> 0 /\
  aggregate p = (IZR (x1 + x2) / 2, IZR (y1 + y2) / 2, s).
Proof.
  intros Hne. cbv zeta. pose proof (line_length_pos y1 y2 Hne) as Hlen.
  unfold aggregate, add_line, weighted_mid_point.
  cbn [total_length sum_of_slopes sum_of_coordinates fst snd LineProcessor_init
       nadd nmul ndiv zero two of_int ExactArithmetic].
  set (L := line_length x1 y1 x2 y2) in *. clearbody L.
  split; [lra|]. f_equal; [f_equal|]; field; lra.
Qed.

Lemma scenario_classified :
  classify_all scenario_lines =
  Ok (add_line (LineProcessor_init GlobalLeft) 0 100 10 90 (-10 / 10),
      add_line (LineProcessor_init GlobalRight) 100 100 110 110 (10 / 10)).
Proof.
  unfold classify_all, scenario_lines. cbn [for_each].
  unfold classify, slope, int_truediv.
  change (10 - 0)%Z with 10%Z. change (90 - 100)%Z with (-10)%Z.
  change (110 - 100)%Z with 10%Z.
  cbn [Z.eqb rbind nltb ndiv of_int zero fst snd ExactArithmetic].
  assert (Hlt : Rltb (-10 / 10) 0 = true) by (apply Rltb_true; lra).
  assert (Hge : Rltb (10 / 10) 0 = false) by (apply Rltb_false; lra).
  rewrite Hlt. cbn [rbind fst snd]. rewrite Hge. reflexivity.
Qed.

(** In exact arithmetic the scenario gives the left line from [(0, 100)] to
    [(50, 50)] and the right line from [(100, 100)] to [(50, 50)]. *)
Lemma scenario_exact :
  snd (draw_lines scenario_lines scenario_area (initial_globals : Globals R))
  = Ok ((0, 100, 50, 50)%Z, (100, 100, 50, 50)%Z).
Proof.
  eapply draw_lines_result; [exact scenario_classified | |];
    cbn [scenario_area vertex0 vertex1 vertex2 vertex3 snd].
  - destruct (@aggregate_single GlobalLeft 0 100 10 90 (-10 / 10)) as [Hne Hagg];
      [lia|].
    match goal with
    | |- snd (get_mean_line ?p _ _ ?g) = _ =>
        destruct (@get_mean_line_first_call p 100 50 g eq_refl Hne) as [_ ->]
    end.
    rewrite Hagg. unfold line_of_mean.
    change (0 + 10)%Z with 10%Z. change (100 + 90)%Z with 190%Z.
    rewrite (@find_x2_from_slope_exact _ _ 100 _ 0) by lra.
    rewrite (@find_x2_from_slope_exact _ _ 50 _ 50) by lra.
    reflexivity.
  - destruct (@aggregate_single GlobalRight 100 100 110 110 (10 / 10))
      as [Hne Hagg]; [lia|].
    match goal with
    | |- snd (get_mean_line ?p _ _ ?g) = _ =>
        destruct (@get_mean_line_first_call p 100 50 g) as [_ ->];
        [ | exact Hne | ]
    end.
    + rewrite get_mean_line_other_tracker by discriminate. reflexivity.
    + rewrite Hagg. unfold line_of_mean.
      change (100 + 110)%Z with 210%Z.
      rewrite (@find_x2_from_slope_exact _ _ 100 _ 100) by lra.
      rewrite (@find_x2_from_slope_exact _ _ 50 _ 50) by lra.
      reflexivity.
Qed.

End Exact.

(** ** Binary64 runs *)

Section Binary64Runs.

Local Open Scope Z_scope.

(** In binary64 the scenario gives the left line from [(0, 100)] to
    [(49, 50)].  The length is [sqrt(200.0) = 14.142135623730951]; the
    weighted sum [95.0 * 14.142135623730951] is rounded to
    [1343.5028842544402], and its quotient by the length is rounded to
    [94.99999999999999], not to [95.0]; so the abscissa at [y = 50] is
    [5.0 - (94.99999999999999 - 50) / -1.0 = 49.999999999999986], which [int()]
    truncates to 49. *)
Lemma scenario_binary64 :
  snd (draw_lines scenario_lines scenario_area fresh_trackers)
  = Ok ((0, 100, 49, 50), (100, 100, 50, 50)).
Proof. vm_compute. reflexivity. Qed.

(** C5 as stated fails on the scenario of the specification: the mean
    ordinate pushed for the left lane is less than 95, and the left line is
    not [(0, 100, 50, 50)]. *)
Lemma scenario_left_line_not_50 :
  PrimFloat.ltb
    (snd (fst (aggregate
                 (add_line (LineProcessor_init GlobalLeft) 0 100 10 90
                    (-1)%float))))
    95 = true /\
  rbind (snd (draw_lines scenario_lines scenario_area fresh_trackers))
    (fun lines => Ok (fst lines))
  <> Ok (0, 100, 50, 50).
Proof. split; [vm_compute; reflexivity | vm_compute; discriminate]. Qed.

(** C6 as stated fails when the mean slope of the history is zero.  After a
    frame with one left segment and one horizontal segment, the right history
    holds one entry, of slope 0; the right lane of the next frame, without
    segments, raises. *)
Lemma zero_mean_slope_history_raises :
  let g := run_frames [([[(0, 100, 10, 90); (0, 5, 10, 5)]], scenario_area)]
             fresh_trackers in
  let p := LineProcessor_init GlobalRight in
  (total_length p =? zero)%num = true /\
  slopes (global_right_lane_slope_holder g) = [0%float] /\
  get_mean_line p 100 50 g = (g, Raise ZeroDivisionError).
Proof. vm_compute. repeat split. Qed.

(** C7 as stated fails: on fresh trackers, a frame whose only segment belongs
    to the right lane makes [draw_lines] raise on the empty left history;
    no line comes out and the right segment is not even recorded. *)
Lemma empty_history_aborts_frame :
  draw_lines [[(100, 100, 110, 110)]] scenario_area fresh_trackers
  = (fresh_trackers, Raise StatisticsError).
Proof. vm_compute. reflexivity. Qed.

(** C8 as stated fails in binary64: for the single segment [(0, 0, 1, -12)],
    of slope [-12.0] and of length [sqrt(145.0) = 12.041594578792296], the
    product [-12.0 * 12.041594578792296] is rounded to [-144.49913494550754]
    and its quotient by the length to [-11.999999999999998], which is greater
    than -12, the greatest (and only) slope. *)
Lemma weighted_mean_slope_binary64_outside :
  slope 0 0 1 (-12) = Ok (-12)%float /\
  PrimFloat.ltb 0 (line_length 0 0 1 (-12)) = true /\
  PrimFloat.leb
    (sum_of_slopes
       (add_lines (LineProcessor_init GlobalLeft) [((0, 0, 1, -12), (-12)%float)])
     / total_length
         (add_lines (LineProcessor_init GlobalLeft) [((0, 0, 1, -12), (-12)%float)]))
    (-12) = false.
Proof. vm_compute. repeat split. Qed.

(** C9 as stated fails: with the aggregate [(0, 2, 1)] in the right history,
    two calls in succession of [get_mean_line] on a processor holding the
    vertical segment [(10, 0, 10, 4)] return two different lines, because
    each call pushes the aggregate [(10, 2, 1)] once more. *)
Lemma get_mean_line_twice_differs :
  let g := fst (get_mean_line
                  (add_line (LineProcessor_init GlobalRight) 0 0 0 4 1%float)
                  2 0 fresh_trackers) in
  let p := add_line (LineProcessor_init GlobalRight) 10 0 10 4 1%float in
  snd (get_mean_line p 2 0 g) = Ok (5, 2, 3, 0) /\
  snd (get_mean_line p 2 0 (fst (get_mean_line p 2 0 g))) = Ok (6, 2, 4, 0) /\
  snd (get_mean_line p 2 0 g)
  <> snd (get_mean_line p 2 0 (fst (get_mean_line p 2 0 g))).
Proof. vm_compute. repeat split. discriminate. Qed.

End Binary64Runs.

(** ** The two readings together *)

(** The amended C5: whenever the mean of the history is [(mx, my, ms)] with
    [ms] not zero (and both abscissae within the range of [int()]), the line
    returned is [(int(mx - (my - bottom_y) / ms), bottom_y,
    int(mx - (my - top_y) / ms), top_y)]; on the scenario of the
    specification the left line is [(0, 100, 50, 50)] in exact arithmetic and
    [(0, 100, 49, 50)] in the binary64 arithmetic the code runs on. *)
Theorem reconstructed_endpoints :
  (forall (num : Type) (H : Number num) (p : LineProcessor num)
          (bottom_y top_y : Z) (g : Globals num) (mx my ms : num)
          (bottom_x top_x : Z),
     get_latest_lane_data
       (deref (fst (get_mean_line p bottom_y top_y g)) (lane_data_tracker p))
       = Ok (mx, my, ms) ->
     (ms =? zero)%num = false ->
     int (mx - (my - of_int bottom_y) / ms)%num = Some bottom_x ->
     int (mx - (my - of_int top_y) / ms)%num = Some top_x ->
     snd (get_mean_line p bottom_y top_y g) =
     Ok (bottom_x, bottom_y, top_x, top_y)) /\
  snd (draw_lines scenario_lines scenario_area (initial_globals : Globals R))
  = Ok ((0, 100, 50, 50)%Z, (100, 100, 50, 50)%Z) /\
  snd (draw_lines scenario_lines scenario_area (initial_globals : Globals float))
  = Ok ((0, 100, 49, 50)%Z, (100, 100, 50, 50)%Z).
Proof.
  split; [|split].
  - intros num H. apply get_mean_line_endpoints.
  - exact scenario_exact.
  - exact scenario_binary64.
Qed.

(** The amended C8: in exact arithmetic, for every non-empty sequence of
    segments of positive length added to a fresh processor, the weighted mean
    slope [sum_of_slopes / total_length] lies between the least and the
    greatest of the slopes passed; in binary64 the quotient is rounded, and
    for the single segment [(0, 0, 1, -12)] it lies above the slope -12. *)
Theorem weighted_mean_slope_between_min_and_max :
  (forall (r : TrackerRef) (segs : list (Segment * R)),
     segs <> [] ->
     (forall a, In a segs -> (0 < length_of a)%R) ->
     let p := add_lines (LineProcessor_init r) segs in
     (MinRlist (map snd segs) <= sum_of_slopes p / total_length p
        <= MaxRlist (map snd segs))%R) /\
  PrimFloat.ltb (-12)
    (sum_of_slopes
       (add_lines (LineProcessor_init GlobalLeft)
          [((0, 0, 1, -12)%Z, (-12)%float)])
     / total_length
         (add_lines (LineProcessor_init GlobalLeft)
            [((0, 0, 1, -12)%Z, (-12)%float)])) = true.
Proof.
  split.
  - exact weighted_mean_slope_exact.
  - vm_compute. reflexivity.
Qed.

(** ** Instances of the theorems *)

Lemma add_line_pushes_weighted_means_witness :
  (zero <? nsum (map euclidean_length one_left_segment))%num = true /\
  fst (get_mean_line (add_lines (LineProcessor_init GlobalLeft) one_left_segment)
         100 50 fresh_trackers) =
  assign fresh_trackers GlobalLeft
    (update (deref fresh_trackers GlobalLeft)
       (nsum (map (fun a => mid_x a * euclidean_length a) one_left_segment)
        / nsum (map euclidean_length one_left_segment))%num
       (nsum (map (fun a => mid_y a * euclidean_length a) one_left_segment)
        / nsum (map euclidean_length one_left_segment))%num
       (nsum (map (fun a => snd a * euclidean_length a) one_left_segment)
        / nsum (map euclidean_length one_left_segment))%num).
Proof.
  split; [reflexivity|].
  apply (proj1 (proj2 (add_line_pushes_weighted_means
                         GlobalLeft one_left_segment 100 50 fresh_trackers))).
  reflexivity.
Defined.

Lemma get_latest_lane_data_arithmetic_mean_witness :
  get_latest_lane_data
    (push_all HistoricalLaneDataTracker_init [(1, 2, 3)%R; (3, 4, 5)%R]) =
  Ok (Rsum [1; 3] / INR 2, Rsum [2; 4] / INR 2, Rsum [3; 5] / INR 2)%R.
Proof.
  apply (get_latest_lane_data_arithmetic_mean [(1, 2, 3)%R; (3, 4, 5)%R]).
  simpl. lia.
Defined.

Lemma history_window_bounded_fifo_witness :
  length forty_five_triples = 45 /\
  slopes (push_all HistoricalLaneDataTracker_init forty_five_triples) =
  skipn 5 (slopes_of forty_five_triples).
Proof.
  split; [reflexivity|].
  exact (proj1 (proj2 (history_window_bounded_fifo (num := float))
                  forty_five_triples eq_refl)).
Defined.

Lemma slope_classifies_every_segment_witness :
  slope (num := float) 0 100 10 90 = Ok (of_int (90 - 100) / of_int (10 - 0))%num.
Proof.
  apply (proj1 (slope_classifies_every_segment (num := float) 0 100 10 90
                  (LineProcessor_init GlobalLeft, LineProcessor_init GlobalRight))).
  discriminate.
Defined.

Lemma reconstructed_endpoints_witness :
  snd (get_mean_line
         (add_line (LineProcessor_init GlobalLeft) 0 100 10 90 (-1)%float)
         100 50 fresh_trackers)
  = Ok (0, 100, 49, 50)%Z.
Proof.
  set (p := add_line (LineProcessor_init GlobalLeft) 0 100 10 90 (-1)%float).
  apply (proj1 reconstructed_endpoints float Binary64Arithmetic p 100%Z 50%Z
           fresh_trackers
           (fst (fst (aggregate p))) (snd (fst (aggregate p))) (snd (aggregate p)));
    vm_compute; reflexivity.
Defined.

Lemma get_mean_line_falls_back_on_history_witness :
  get_mean_line (LineProcessor_init GlobalRight) 100 50 five_frames
  = (five_frames, Ok (100, 100, 50, 50)%Z).
Proof.
  set (t := global_right_lane_slope_holder five_frames).
  apply (@get_mean_line_falls_back_on_history float Binary64Arithmetic
           (LineProcessor_init GlobalRight) 100%Z 50%Z five_frames
           (exact_mean (mean_x_values t)) (exact_mean (mean_y_values t))
           (exact_mean (slopes t)));
    vm_compute; reflexivity.
Defined.

Lemma empty_history_query_raises_witness :
  get_latest_lane_data (deref fresh_trackers GlobalLeft) = Raise StatisticsError.
Proof.
  exact (proj1 (@empty_history_query_raises float Binary64Arithmetic fresh_trackers
                  GlobalLeft (conj eq_refl (conj eq_refl eq_refl)))).
Defined.

Lemma weighted_mean_slope_between_min_and_max_witness :
  (MinRlist (map snd two_right_segments)
   <= sum_of_slopes (add_lines (LineProcessor_init GlobalRight) two_right_segments)
      / total_length (add_lines (LineProcessor_init GlobalRight) two_right_segments)
   <= MaxRlist (map snd two_right_segments))%R.
Proof.
  apply (proj1 weighted_mean_slope_between_min_and_max GlobalRight
           two_right_segments).
  - discriminate.
  - intros a [<-|[<-|[]]]; apply line_length_pos; lia.
Defined.

Lemma get_mean_line_twice_unchanged_history_witness :
  get_mean_line (LineProcessor_init GlobalRight) 100 50
    (fst (get_mean_line (LineProcessor_init GlobalRight) 100 50 five_frames))
  = get_mean_line (LineProcessor_init GlobalRight) 100 50 five_frames.
Proof.
  exact (proj2 (@get_mean_line_twice_unchanged_history float Binary64Arithmetic
                  (LineProcessor_init GlobalRight) 100 50 five_frames eq_refl)).
Defined.

Lemma left_lane_mean_slope_never_zero_witness :
  snd (get_mean_line
         (add_line (LineProcessor_init GlobalLeft) 0 100 10 90 (-10 / 10)%R)
         100 50 (run_frames [] initial_globals))
  <> Raise ZeroDivisionError.
Proof.
  exact (proj2 (proj2 (proj1 (proj2 left_lane_mean_slope_never_zero) []))
           scenario_lines _ _ 100%Z 50%Z scenario_classified).
Defined.

(** * Further properties *)

(** ** Sessions and the history window *)

Section Sessions.

Context {num : Type} `{Number num}.
Local Open Scope num_scope.

Lemma keep_last_app {A : Type} (n : nat) (l1 l2 : list A) :
  n <= length l2 -> keep_last n (l1 ++ l2) = keep_last n l2.
Proof.
  intros Hn. unfold keep_last. rewrite length_app, skipn_app.
  rewrite skipn_all2 by lia. cbn [app]. f_equal. lia.
Qed.

Lemma keep_last_nonempty {A : Type} (n : nat) (l : list A) :
  1 <= n -> l <> [] -> keep_last n l <> [].
Proof.
  intros Hn Hl Hk. apply (f_equal (@length A)) in Hk.
  rewrite keep_last_length in Hk. destruct l; [congruence|]. simpl in Hk. lia.
Qed.

(** X1: the state of a tracker depends on its last 40 pushes only: once 40
    triples have been pushed, whatever was pushed before them is forgotten. *)
Theorem history_forgets_older_pushes (older recent : list (num * num * num)) :
  40 <= length recent ->
  push_all HistoricalLaneDataTracker_init (older ++ recent) =
  push_all HistoricalLaneDataTracker_init recent.
Proof.
  intros Hlen. rewrite !push_all_window. unfold xs_of, ys_of, slopes_of.
  rewrite !map_app, !keep_last_app by (rewrite length_map; exact Hlen).
  reflexivity.
Qed.

(** X2: after any number of pushes from the empty tracker, the query raises
    [StatisticsError] exactly when nothing was pushed; otherwise it returns
    the three means of the last 40 pushed values (of all of them when there
    are fewer). *)
Theorem get_latest_lane_data_after_pushes (triples : list (num * num * num)) :
  (get_latest_lane_data (push_all HistoricalLaneDataTracker_init triples)
   = Raise StatisticsError <-> triples = []) /\
  (triples <> [] ->
   get_latest_lane_data (push_all HistoricalLaneDataTracker_init triples) =
   Ok (exact_mean (keep_last 40 (xs_of triples)),
       exact_mean (keep_last 40 (ys_of triples)),
       exact_mean (keep_last 40 (slopes_of triples)))).
Proof.
  assert (Hok : triples <> [] ->
    get_latest_lane_data (push_all HistoricalLaneDataTracker_init triples) =
    Ok (exact_mean (keep_last 40 (xs_of triples)),
        exact_mean (keep_last 40 (ys_of triples)),
        exact_mean (keep_last 40 (slopes_of triples)))).
  { intros Hne. rewrite push_all_window. unfold get_latest_lane_data.
    cbn [mean_x_values mean_y_values slopes].
    assert (Hmap : forall f : num * num * num -> num,
               keep_last 40 (map f triples) <> []).
    { intros f. apply keep_last_nonempty; [lia|].
      destruct triples; [congruence | discriminate]. }
    unfold xs_of, ys_of, slopes_of, statistics_mean.
    pose proof (Hmap (fun p => fst (fst p))) as Hx.
    pose proof (Hmap (fun p => snd (fst p))) as Hy.
    pose proof (Hmap (fun p => snd p)) as Hs.
    destruct (keep_last 40 (map (fun p => fst (fst p)) triples)); [congruence|].
    destruct (keep_last 40 (map (fun p => snd (fst p)) triples)); [congruence|].
    destruct (keep_last 40 (map (fun p => snd p) triples)); [congruence|].
    reflexivity. }
  split; [|exact Hok]. split.
  - intros Hraise. destruct triples as [|t triples]; [reflexivity|].
    rewrite Hok in Hraise by discriminate. discriminate.
  - intros ->. reflexivity.
Qed.

Lemma length_tl_snoc {A : Type} (l : list A) (a : A) :
  length (tl (l ++ [a])) = length l.
Proof. destruct l; cbn; [reflexivity|]. rewrite length_app. cbn. lia. Qed.

Lemma update_well_formed (t : HistoricalLaneDataTracker num) (x y s : num) :
  well_formed t -> well_formed (update t x y s).
Proof.
  intros (Hn & Hx & Hy & Hle). unfold well_formed, update, pop0. rewrite Hn.
  rewrite length_app. cbn [length].
  destruct (Nat.ltb_spec 40 (length (slopes t) + 1));
    cbn [number_of_slopes_to_remember slopes mean_x_values mean_y_values];
    rewrite ?length_tl_snoc, ?length_app; cbn [length]; lia.
Qed.

Lemma update_nonempty (t : HistoricalLaneDataTracker num) (x y s : num) :
  well_formed t -> slopes (update t x y s) <> [].
Proof.
  intros (Hn & Hx & Hy & Hle) Hnil. apply (f_equal (@length num)) in Hnil.
  revert Hnil. unfold update, pop0. rewrite Hn, length_app. cbn [length].
  destruct (Nat.ltb_spec 40 (length (slopes t) + 1)); cbn [slopes];
    rewrite ?length_tl_snoc, ?length_app; cbn [length]; lia.
Qed.

(** The store [draw_lines] leaves: that of the left call when it raises,
    that of the right call after it otherwise. *)
Lemma draw_lines_store (lines : list (list Segment)) (area_of_interest : Polygon)
    (lp rp : LineProcessor num) (g : Globals num) :
  classify_all lines = Ok (lp, rp) ->
  fst (draw_lines lines area_of_interest g) =
  match snd (get_mean_line lp (snd (vertex0 area_of_interest))
               (snd (vertex1 area_of_interest)) g) with
  | Ok _ =>
      fst (get_mean_line rp (snd (vertex3 area_of_interest))
             (snd (vertex2 area_of_interest))
             (fst (get_mean_line lp (snd (vertex0 area_of_interest))
                     (snd (vertex1 area_of_interest)) g)))
  | Raise _ =>
      fst (get_mean_line lp (snd (vertex0 area_of_interest))
             (snd (vertex1 area_of_interest)) g)
  end.
Proof.
  intros Hcl. unfold draw_lines, bind, lift, ret. rewrite Hcl.
  destruct (get_mean_line lp _ _ g) as [g1 [left_line|e]]; cbn [fst snd];
    [|reflexivity].
  destruct (get_mean_line rp _ _ g1) as [g2 [right_line|e]]; reflexivity.
Qed.

(** What every call of [get_mean_line] preserves, a session preserves. *)
Lemma run_frames_invariant (P : Globals num -> Prop) :
  (forall (p : LineProcessor num) (bottom_y top_y : Z) (g : Globals num),
     P g -> P (fst (get_mean_line p bottom_y top_y g))) ->
  forall (frames : list Frame) (g : Globals num),
    P g -> P (run_frames frames g).
Proof.
  intros Hcall frames. induction frames as [|[lines area] frames IH];
    intros g Hg; [exact Hg|].
  unfold run_frames in *. cbn [fold_left fst snd]. apply IH.
  destruct (classify_all_total (num := num) lines) as [[lp rp] Hcl].
  rewrite (draw_lines_store _ area g Hcl).
  destruct (snd (get_mean_line lp _ _ g)); auto.
Qed.

Lemma get_mean_line_well_formed (p : LineProcessor num) (bottom_y top_y : Z)
    (g : Globals num) (r : TrackerRef) :
  well_formed (deref g r) ->
  well_formed (deref (fst (get_mean_line p bottom_y top_y g)) r).
Proof.
  intros Hwf. rewrite get_mean_line_store.
  destruct (total_length p =? zero); [exact Hwf|].
  unfold pushed. destruct (aggregate p) as [[x y] s].
  destruct (lane_data_tracker p), r; cbn [deref assign
    global_left_lane_slope_holder global_right_lane_slope_holder];
    try exact Hwf; apply update_well_formed; exact Hwf.
Qed.

Lemma run_frames_well_formed (frames : list Frame) (r : TrackerRef) :
  well_formed (deref (run_frames frames initial_globals) r).
Proof.
  apply (run_frames_invariant (fun g => well_formed (deref g r))).
  - intros p bottom_y top_y g. apply get_mean_line_well_formed.
  - destruct r; repeat split; cbn; lia.
Qed.

(** X3: over a whole session started on the two empty trackers, whatever the
    frames and whether or not some of them raised, each tracker keeps its
    capacity of 40 and its three lists have one and the same length, at
    most 40. *)
Theorem session_trackers_well_formed (frames : list Frame) :
  let g := run_frames frames initial_globals in
  well_formed (global_left_lane_slope_holder g) /\
  well_formed (global_right_lane_slope_holder g).
Proof.
  split.
  - exact (run_frames_well_formed frames GlobalLeft).
  - exact (run_frames_well_formed frames GlobalRight).
Qed.

Lemma get_mean_line_keeps_nonempty (p : LineProcessor num) (bottom_y top_y : Z)
    (g : Globals num) (r : TrackerRef) :
  well_formed (deref g r) -> slopes (deref g r) <> [] ->
  slopes (deref (fst (get_mean_line p bottom_y top_y g)) r) <> [].
Proof.
  intros Hwf Hne. rewrite get_mean_line_store.
  destruct (total_length p =? zero); [exact Hne|].
  unfold pushed. destruct (aggregate p) as [[x y] s].
  destruct (lane_data_tracker p), r; cbn [deref assign
    global_left_lane_slope_holder global_right_lane_slope_holder] in *;
    try exact Hne; apply update_nonempty; exact Hwf.
Qed.

Lemma run_frames_app (frames more : list Frame) (g : Globals num) :
  run_frames (frames ++ more) g = run_frames more (run_frames frames g).
Proof. unfold run_frames. apply fold_left_app. Qed.

(** X4: a history never becomes empty again: if a lane's history holds an
    entry after some frames of a session, it holds one after any further
    frames. *)
Theorem history_stays_nonempty (frames more : list Frame) (r : TrackerRef) :
  slopes (deref (run_frames frames initial_globals) r) <> [] ->
  slopes (deref (run_frames (frames ++ more) initial_globals) r) <> [].
Proof.
  intros Hne. rewrite run_frames_app.
  pose (P := fun g : Globals num =>
               well_formed (deref g r) /\ slopes (deref g r) <> []).
  assert (HP : P (run_frames more (run_frames frames initial_globals))).
  { apply run_frames_invariant.
    - intros p bottom_y top_y g [Hwf Hg]. split.
      + apply get_mean_line_well_formed. exact Hwf.
      + apply get_mean_line_keeps_nonempty; assumption.
    - split; [apply run_frames_well_formed | exact Hne]. }
  exact (proj2 HP).
Qed.

End Sessions.

(** ** The frame *)

Section Frames.

Context {num : Type} `{Number num}.
Local Open Scope num_scope.

Lemma slope_is_slope_value (x1 y1 x2 y2 : Z) :
  slope x1 y1 x2 y2 = Ok (slope_value (x1, y1, x2, y2)).
Proof.
  unfold slope, slope_value, int_truediv.
  destruct (Z.eqb_spec 0 (x2 - x1)) as [Heq|Hne]; [reflexivity|].
  destruct (Z.eqb_spec (x2 - x1) 0) as [Heq|_]; [|reflexivity].
  exfalso. apply Hne. symmetry. exact Heq.
Qed.

Lemma classify_step (ps : LineProcessor num * LineProcessor num)
    (x1 y1 x2 y2 : Z) :
  classify ps (x1, y1, x2, y2) =
  Ok (if goes_left (x1, y1, x2, y2)
      then (add_line (fst ps) x1 y1 x2 y2 (slope_value (x1, y1, x2, y2)), snd ps)
      else (fst ps, add_line (snd ps) x1 y1 x2 y2 (slope_value (x1, y1, x2, y2)))).
Proof.
  unfold classify, goes_left. rewrite slope_is_slope_value. cbn [rbind].
  destruct (slope_value (x1, y1, x2, y2) <? zero); reflexivity.
Qed.

Lemma for_each_classify (segs : list Segment)
    (ps : LineProcessor num * LineProcessor num) :
  for_each classify segs ps =
  Ok (add_lines (fst ps) (map tagged (filter goes_left segs)),
      add_lines (snd ps) (map tagged (filter goes_right segs))).
Proof.
  revert ps. induction segs as [|[[[x1 y1] x2] y2] segs IH]; intros [lp rp].
  - reflexivity.
  - cbn [for_each]. rewrite classify_step. cbn [rbind]. rewrite IH.
    cbn [filter]. unfold goes_right.
    destruct (goes_left (x1, y1, x2, y2)); reflexivity.
Qed.

Lemma add_lines_app (p : LineProcessor num) (l1 l2 : list (Segment * num)) :
  add_lines p (l1 ++ l2) = add_lines (add_lines p l1) l2.
Proof. unfold add_lines. apply fold_left_app. Qed.

Lemma for_each_lines (lines : list (list Segment))
    (ps : LineProcessor num * LineProcessor num) :
  for_each (fun ps line => for_each classify line ps) lines ps =
  Ok (add_lines (fst ps) (map tagged (filter goes_left (concat lines))),
      add_lines (snd ps) (map tagged (filter goes_right (concat lines)))).
Proof.
  revert ps. induction lines as [|line lines IH]; intros ps.
  - destruct ps. reflexivity.
  - cbn [for_each concat]. rewrite for_each_classify. cbn [rbind].
    rewrite IH. cbn [fst snd].
    rewrite !filter_app, !map_app, !add_lines_app. reflexivity.
Qed.

(** X5: the two nested loops of [draw_lines] never raise and split the
    detected segments in two: the left processor ends up as the accumulator
    of exactly the segments of negative slope, each added with its slope, in
    the order of detection, and the right processor as that of all the
    others. *)
Theorem classify_all_partitions (lines : list (list Segment)) :
  classify_all lines =
  Ok (add_lines (LineProcessor_init GlobalLeft)
        (map tagged (filter goes_left (concat lines))),
      add_lines (LineProcessor_init GlobalRight)
        (map tagged (filter goes_right (concat lines)))).
Proof. unfold classify_all. apply for_each_lines. Qed.

Lemma get_mean_line_ok_shape (p : LineProcessor num) (bottom_y top_y : Z)
    (g : Globals num) (line : Z * Z * Z * Z) :
  snd (get_mean_line p bottom_y top_y g) = Ok line ->
  exists bottom_x top_x : Z, line = (bottom_x, bottom_y, top_x, top_y).
Proof.
  rewrite get_mean_line_result.
  destruct (get_latest_lane_data _) as [[[mx my] ms]|e]; [|discriminate].
  cbn [rbind line_of_mean].
  destruct (find_x2_from_slope mx my bottom_y ms) as [bx|e]; [|discriminate].
  destruct (find_x2_from_slope mx my top_y ms) as [tx|e]; [|discriminate].
  cbn [rbind]. intros [= <-]. eauto.
Qed.

Lemma draw_lines_ok_inv (lines : list (list Segment)) (area_of_interest : Polygon)
    (g : Globals num) (left_line right_line : Z * Z * Z * Z) :
  snd (draw_lines lines area_of_interest g) = Ok (left_line, right_line) ->
  exists lp rp : LineProcessor num,
    classify_all lines = Ok (lp, rp) /\
    snd (get_mean_line lp (snd (vertex0 area_of_interest))
           (snd (vertex1 area_of_interest)) g) = Ok left_line /\
    snd (get_mean_line rp (snd (vertex3 area_of_interest))
           (snd (vertex2 area_of_interest))
           (fst (get_mean_line lp (snd (vertex0 area_of_interest))
                   (snd (vertex1 area_of_interest)) g))) = Ok right_line.
Proof.
  destruct (classify_all_total (num := num) lines) as [[lp rp] Hcl].
  unfold draw_lines, bind, lift, ret. rewrite Hcl.
  destruct (get_mean_line lp _ _ g) as [g1 [l|e]] eqn:Hleft; [|discriminate].
  destruct (get_mean_line rp _ _ g1) as [g2 [r|e]] eqn:Hright; [|discriminate].
  cbn [fst snd]. intros [= <- <-]. exists lp, rp.
  rewrite Hleft. cbn [fst snd]. rewrite Hright. repeat split.
Qed.

(** X6: whenever [draw_lines] returns, the left line runs from the ordinate
    of the first vertex of the area of interest to that of the second, and
    the right line from the ordinate of the fourth vertex to that of the
    third; with the polygon of [process_image], both run from [y = 539] to
    [y = 325]. *)
Theorem draw_lines_spans_area_of_interest :
  (forall (lines : list (list Segment)) (area_of_interest : Polygon)
          (g : Globals num) (left_line right_line : Z * Z * Z * Z),
     snd (draw_lines lines area_of_interest g) = Ok (left_line, right_line) ->
     exists bottom_left_x top_left_x bottom_right_x top_right_x : Z,
       left_line = (bottom_left_x, snd (vertex0 area_of_interest),
                    top_left_x, snd (vertex1 area_of_interest)) /\
       right_line = (bottom_right_x, snd (vertex3 area_of_interest),
                     top_right_x, snd (vertex2 area_of_interest))) /\
  (forall (lines : list (list Segment)) (g : Globals num)
          (left_line right_line : Z * Z * Z * Z),
     snd (draw_lines lines process_image_area_of_interest g)
     = Ok (left_line, right_line) ->
     exists bottom_left_x top_left_x bottom_right_x top_right_x : Z,
       left_line = (bottom_left_x, 539, top_left_x, 325)%Z /\
       right_line = (bottom_right_x, 539, top_right_x, 325)%Z).
Proof.
  assert (Hgen : forall (lines : list (list Segment)) (area : Polygon)
            (g : Globals num) (left_line right_line : Z * Z * Z * Z),
     snd (draw_lines lines area g) = Ok (left_line, right_line) ->
     exists bottom_left_x top_left_x bottom_right_x top_right_x : Z,
       left_line = (bottom_left_x, snd (vertex0 area),
                    top_left_x, snd (vertex1 area)) /\
       right_line = (bottom_right_x, snd (vertex3 area),
                     top_right_x, snd (vertex2 area))).
  { intros lines area g left_line right_line Hok.
    destruct (draw_lines_ok_inv _ _ _ Hok) as (lp & rp & _ & Hl & Hr).
    destruct (get_mean_line_ok_shape _ _ _ _ Hl) as (bx & tx & ->).
    destruct (get_mean_line_ok_shape _ _ _ _ Hr) as (bx' & tx' & ->).
    exists bx, tx, bx', tx'. split; reflexivity. }
  split; [exact Hgen|].
  intros lines g left_line right_line Hok.
  exact (Hgen lines process_image_area_of_interest g left_line right_line Hok).
Qed.

(** X7: when the left call of [get_mean_line] raises, [draw_lines] raises the
    same exception without running the right call: the right tracker is left
    as it was, and the right segments of the frame are not recorded. *)
Theorem draw_lines_left_failure_skips_right (lines : list (list Segment))
    (area_of_interest : Polygon) (g : Globals num)
    (lp rp : LineProcessor num) (e : exn) :
  classify_all lines = Ok (lp, rp) ->
  snd (get_mean_line lp (snd (vertex0 area_of_interest))
         (snd (vertex1 area_of_interest)) g) = Raise e ->
  snd (draw_lines lines area_of_interest g) = Raise e /\
  global_right_lane_slope_holder (fst (draw_lines lines area_of_interest g)) =
  global_right_lane_slope_holder g.
Proof.
  intros Hcl Hleft. destruct (classify_all_trackers _ Hcl) as [Hl _]. split.
  - unfold draw_lines, bind, lift. rewrite Hcl.
    destruct (get_mean_line lp _ _ g) as [g1 res]. cbn [snd] in Hleft.
    subst res. reflexivity.
  - rewrite (draw_lines_store _ area_of_interest g Hcl), Hleft.
    apply (get_mean_line_other_tracker lp _ _ g (r' := GlobalRight)).
    rewrite Hl. discriminate.
Qed.

Lemma update_appends (t : HistoricalLaneDataTracker num) (x y s : num) :
  well_formed t ->
  exists older_x older_y older_s : list num,
    mean_x_values (update t x y s) = older_x ++ [x] /\
    mean_y_values (update t x y s) = older_y ++ [y] /\
    slopes (update t x y s) = older_s ++ [s].
Proof.
  intros (Hn & Hx & Hy & Hle). unfold update, pop0. rewrite Hn, length_app.
  cbn [length].
  destruct (Nat.ltb_spec 40 (length (slopes t) + 1)) as [Hlt|_];
    cbn [mean_x_values mean_y_values slopes].
  - destruct (slopes t) as [|a ss]; [cbn in Hlt; lia|].
    destruct (mean_x_values t) as [|ax xs]; [cbn in Hx; lia|].
    destruct (mean_y_values t) as [|ay ys]; [cbn in Hy; lia|].
    cbn [app tl]. exists xs, ys, ss. repeat split.
  - exists (mean_x_values t), (mean_y_values t), (slopes t). repeat split.
Qed.

(** X8: in a session, a call of [get_mean_line] with [total_length != 0]
    records the aggregate as the newest entry of the history before it
    queries it, so the entry is there whatever the call returns, also when
    it raises on a zero mean slope. *)
Theorem get_mean_line_records_before_raising (frames : list Frame)
    (p : LineProcessor num) (bottom_y top_y : Z) :
  (total_length p =? zero) = false ->
  let g := run_frames frames initial_globals in
  let t := deref (fst (get_mean_line p bottom_y top_y g)) (lane_data_tracker p) in
  exists older_x older_y older_s : list num,
    mean_x_values t = older_x ++ [fst (fst (aggregate p))] /\
    mean_y_values t = older_y ++ [snd (fst (aggregate p))] /\
    slopes t = older_s ++ [snd (aggregate p)].
Proof.
  intros Hnz. cbv zeta. rewrite get_mean_line_store, Hnz. unfold pushed.
  destruct (aggregate p) as [[x y] s]. rewrite deref_assign_same.
  apply update_appends. apply run_frames_well_formed.
Qed.

End Frames.

(** ** The two lanes in exact arithmetic *)

Section Lanes.

Local Open Scope R_scope.

Lemma get_latest_lane_data_well_formed (t : HistoricalLaneDataTracker R) :
  well_formed t ->
  (slopes t = [] -> get_latest_lane_data t = Raise StatisticsError) /\
  (slopes t <> [] ->
   get_latest_lane_data t =
   Ok (Rmean (mean_x_values t), Rmean (mean_y_values t), Rmean (slopes t))).
Proof.
  intros (_ & Hx & Hy & _). unfold get_latest_lane_data, statistics_mean.
  destruct (slopes t) as [|s ss]; split; intros Hs; try congruence.
  - destruct (mean_x_values t); [reflexivity | discriminate].
  - destruct (mean_x_values t); [discriminate|].
    destruct (mean_y_values t); [discriminate|]. reflexivity.
Qed.

Lemma add_line_right_sums (p : LineProcessor R) (x1 y1 x2 y2 : Z) (s : R) :
  right_sums p -> 0 <= s -> right_sums (add_line p x1 y1 x2 y2 s).
Proof.
  intros [Ht Hs] Hnn. unfold right_sums, add_line.
  cbn [total_length sum_of_slopes nadd nmul ExactArithmetic].
  assert (Hlen : 0 <= line_length (num := R) x1 y1 x2 y2) by apply sqrt_pos.
  split; nra.
Qed.

Lemma classify_all_right_sums (lines : list (list Segment))
    (lp rp : LineProcessor R) :
  classify_all lines = Ok (lp, rp) -> right_sums rp.
Proof.
  apply (classify_all_invariant (fun ps => right_sums (snd ps))).
  - split; cbn; lra.
  - intros ps [[[x1 y1] x2] y2] ps' Hps. rewrite classify_step.
    unfold goes_left. cbn [nltb zero ExactArithmetic].
    destruct (Rltb _ 0) eqn:Hlt; intros [= <-]; cbn [snd]; [exact Hps|].
    apply add_line_right_sums; [exact Hps|]. apply Rltb_false. exact Hlt.
Qed.

Lemma update_nonnegative_history (t : HistoricalLaneDataTracker R) (x y s : R) :
  nonnegative_history t -> 0 <= s -> nonnegative_history (update t x y s).
Proof.
  intros Ht Hs. unfold nonnegative_history, update, pop0 in *.
  assert (Happ : Forall (fun s => 0 <= s) (slopes t ++ [s]))
    by (apply Forall_app; split;
        [exact Ht | apply Forall_cons; [exact Hs | constructor]]).
  destruct (_ <? _)%nat; cbn [slopes]; [apply Forall_tl|]; exact Happ.
Qed.

Lemma get_mean_line_nonnegative_history (p : LineProcessor R)
    (bottom_y top_y : Z) (g : Globals R) :
  right_sums p ->
  nonnegative_history (deref g (lane_data_tracker p)) ->
  nonnegative_history
    (deref (fst (get_mean_line p bottom_y top_y g)) (lane_data_tracker p)).
Proof.
  intros [Ht Hs] Hg. rewrite get_mean_line_store.
  cbn [neqb zero ExactArithmetic].
  destruct (Reqb (total_length p) 0) eqn:Hz; [exact Hg|].
  apply Reqb_false in Hz. unfold pushed, aggregate.
  rewrite deref_assign_same. apply update_nonnegative_history; [exact Hg|].
  cbn [ndiv ExactArithmetic].
  apply Rmult_le_reg_r with (total_length p); [lra|].
  replace (sum_of_slopes p / total_length p * total_length p)
    with (sum_of_slopes p) by (field; lra).
  lra.
Qed.

Lemma draw_lines_right_tracker_nonnegative (lines : list (list Segment))
    (area_of_interest : Polygon) (g : Globals R) :
  nonnegative_history (deref g GlobalRight) ->
  nonnegative_history
    (deref (fst (draw_lines lines area_of_interest g)) GlobalRight).
Proof.
  intros Hg. destruct (classify_all_total (num := R) lines) as [[lp rp] Hcl].
  destruct (classify_all_trackers _ Hcl) as [Hl Hr].
  rewrite (draw_lines_store _ area_of_interest g Hcl).
  assert (Hg1 : nonnegative_history
            (deref (fst (get_mean_line lp (snd (vertex0 area_of_interest))
                           (snd (vertex1 area_of_interest)) g)) GlobalRight)).
  { rewrite get_mean_line_other_tracker; [exact Hg|]. rewrite Hl. discriminate. }
  destruct (snd (get_mean_line lp _ _ g)); [|exact Hg1].
  rewrite <- Hr. apply get_mean_line_nonnegative_history.
  - exact (classify_all_right_sums _ Hcl).
  - rewrite Hr. exact Hg1.
Qed.

Lemma run_frames_nonnegative_history (frames : list Frame) (g : Globals R) :
  nonnegative_history (deref g GlobalRight) ->
  nonnegative_history (deref (run_frames frames g) GlobalRight).
Proof.
  revert g. induction frames as [|[lines area] frames IH]; intros g Hg.
  - exact Hg.
  - unfold run_frames in *. cbn [fold_left fst snd]. apply IH.
    apply draw_lines_right_tracker_nonnegative. exact Hg.
Qed.

Lemma Rsum_nonnegative (l : list R) :
  Forall (fun s => 0 <= s) l ->
  0 <= Rsum l /\ (Rsum l = 0 <-> Forall (fun s => s = 0) l).
Proof.
  intros Hl. induction Hl as [|a l Ha Hl [IHnn IHz]].
  - split; [cbn; lra|]. split; [constructor | reflexivity].
  - unfold Rsum in *. cbn [fold_right]. split; [lra|]. split.
    + intros Hsum. constructor; [lra|]. apply IHz. lra.
    + intros Hall. inversion Hall as [|b l' Hb Hrest]; subst.
      apply IHz in Hrest. lra.
Qed.

Lemma Rmean_zero_iff (l : list R) :
  l <> [] -> Forall (fun s => 0 <= s) l ->
  (Rmean l = 0 <-> Forall (fun s => s = 0) l).
Proof.
  intros Hne Hl. destruct (Rsum_nonnegative Hl) as [_ Hz].
  assert (Hn : 0 < INR (length l))
    by (apply lt_0_INR; destruct l; [congruence | cbn; lia]).
  rewrite <- Hz. unfold Rmean. split; intros Hm.
  - replace (Rsum l) with (Rsum l / INR (length l) * INR (length l))
      by (field; lra).
    rewrite Hm. ring.
  - rewrite Hm. field. lra.
Qed.

(** X9: in exact arithmetic no slope in the right history is ever negative,
    over any session; and on such a history the right call of
    [get_mean_line] raises [ZeroDivisionError] exactly when the history it
    queries, the aggregate of the frame included, is not empty and holds
    slopes 0 only, that is, horizontal frames only. *)
Theorem right_lane_zero_division_iff :
  (forall frames : list Frame,
     nonnegative_history
       (global_right_lane_slope_holder (run_frames frames initial_globals))) /\
  (forall (g : Globals R) (lines : list (list Segment))
          (lp rp : LineProcessor R) (bottom_y top_y : Z),
     well_formed (global_right_lane_slope_holder g) ->
     nonnegative_history (global_right_lane_slope_holder g) ->
     classify_all lines = Ok (lp, rp) ->
     let queried :=
       slopes (global_right_lane_slope_holder
                 (fst (get_mean_line rp bottom_y top_y g))) in
     snd (get_mean_line rp bottom_y top_y g) = Raise ZeroDivisionError <->
     queried <> [] /\ Forall (fun s => s = 0) queried).
Proof.
  split.
  - intros frames.
    apply (run_frames_nonnegative_history frames initial_globals). constructor.
  - intros g lines lp rp bottom_y top_y Hwf Hnn Hcl. cbv zeta.
    destruct (classify_all_trackers _ Hcl) as [_ Hr].
    pose proof (@get_mean_line_nonnegative_history rp bottom_y top_y g
                  (classify_all_right_sums _ Hcl)) as Hnn'.
    pose proof (get_mean_line_well_formed rp bottom_y top_y g GlobalRight Hwf)
      as Hwf'.
    rewrite Hr in Hnn'. specialize (Hnn' Hnn).
    rewrite get_mean_line_result, Hr.
    change (deref ?g0 GlobalRight) with (global_right_lane_slope_holder g0) in *.
    set (t := global_right_lane_slope_holder
                (fst (get_mean_line rp bottom_y top_y g))) in *.
    destruct (get_latest_lane_data_well_formed Hwf') as [Hempty Hfull].
    destruct (slopes t) as [|s ss] eqn:Hsl.
    + rewrite Hempty by reflexivity. cbn [rbind]. split.
      * discriminate.
      * intros [Hne _]. congruence.
    + rewrite Hfull by discriminate. cbn [rbind line_of_mean].
      unfold find_x2_from_slope, truediv. cbn [neqb zero int ExactArithmetic].
      assert (Hz : Rmean (s :: ss) = 0 <-> Forall (fun s => s = 0) (s :: ss)).
      { apply Rmean_zero_iff; [discriminate|]. rewrite <- Hsl. exact Hnn'. }
      destruct (Reqb (Rmean (s :: ss)) 0) eqn:Hm; cbn [rbind].
      * apply Reqb_true in Hm. split; [|reflexivity].
        intros _. split; [discriminate | apply Hz; exact Hm].
      * apply Reqb_false in Hm. split; [discriminate|].
        intros [_ Hall]. apply Hz in Hall. contradiction.
Qed.

(** The outcome of a call on a history of negative slopes. *)
Lemma negative_history_outcome (t : HistoricalLaneDataTracker R)
    (bottom_y top_y : Z) :
  well_formed t -> negative_history t ->
  (slopes t = [] ->
   rbind (get_latest_lane_data t) (fun m => line_of_mean m bottom_y top_y)
   = Raise StatisticsError) /\
  (slopes t <> [] ->
   exists bottom_x top_x : Z,
     rbind (get_latest_lane_data t) (fun m => line_of_mean m bottom_y top_y)
     = Ok (bottom_x, bottom_y, top_x, top_y)).
Proof.
  intros Hwf Hneg. destruct (get_latest_lane_data_well_formed Hwf)
    as [Hempty Hfull]. split; intros Hs.
  - rewrite Hempty by exact Hs. reflexivity.
  - rewrite Hfull by exact Hs. cbn [rbind].
    apply line_of_mean_negative_slope. apply Rmean_negative; assumption.
Qed.

(** X10: in exact arithmetic, over any session, the left call of
    [get_mean_line] has two outcomes only: it raises [StatisticsError] exactly
    when the left history is empty and the frame has no left segment, and it
    returns a line in every other case. *)
Theorem left_lane_raises_iff (frames : list Frame) (lines : list (list Segment))
    (lp rp : LineProcessor R) (bottom_y top_y : Z) :
  classify_all lines = Ok (lp, rp) ->
  let g : Globals R := run_frames frames initial_globals in
  let empty := slopes (global_left_lane_slope_holder g) = []
               /\ total_length lp = 0 in
  (snd (get_mean_line lp bottom_y top_y g) = Raise StatisticsError <-> empty) /\
  (~ empty ->
   exists bottom_x top_x : Z,
     snd (get_mean_line lp bottom_y top_y g)
     = Ok (bottom_x, bottom_y, top_x, top_y)).
Proof.
  intros Hcl. cbv zeta.
  set (g := run_frames frames initial_globals).
  destruct (classify_all_trackers _ Hcl) as [Hl _].
  assert (Hwf : well_formed (deref g GlobalLeft))
    by apply run_frames_well_formed.
  assert (Hneg : negative_history (deref g GlobalLeft))
    by (apply run_frames_negative_history; constructor).
  pose proof (get_mean_line_well_formed lp bottom_y top_y g GlobalLeft Hwf)
    as Hwf'.
  pose proof (@get_mean_line_negative_history lp bottom_y top_y g
                (classify_all_left_sums _ Hcl)) as Hneg'.
  rewrite Hl in Hneg'. specialize (Hneg' Hneg).
  destruct (negative_history_outcome bottom_y top_y Hwf' Hneg')
    as [Hempty Hfull].
  rewrite get_mean_line_result, Hl.
  revert Hempty Hfull. rewrite get_mean_line_store.
  cbn [neqb zero ExactArithmetic].
  change (global_left_lane_slope_holder g) with (deref g GlobalLeft).
  destruct (Reqb (total_length lp) 0) eqn:Hz.
  - apply Reqb_true in Hz. intros Hempty Hfull.
    destruct (slopes (deref g GlobalLeft)) as [|s ss] eqn:Hsl.
    + rewrite Hempty by reflexivity. split.
      * split; [intros _; split; [reflexivity | exact Hz] | reflexivity].
      * intros Hnot. exfalso. apply Hnot. split; [reflexivity | exact Hz].
    + destruct Hfull as (bx & tx & Hok); [discriminate|]. rewrite Hok. split.
      * split; [discriminate | intros [Habs _]; discriminate].
      * intros _. exists bx, tx. reflexivity.
  - apply Reqb_false in Hz. intros _ Hfull.
    destruct Hfull as (bx & tx & Hok).
    + unfold pushed. destruct (aggregate lp) as [[x y] s0].
      rewrite Hl, deref_assign_same. apply update_nonempty. exact Hwf.
    + rewrite Hok. split.
      * split; [discriminate | intros [_ Habs]; contradiction].
      * intros _. exists bx, tx. reflexivity.
Qed.

End Lanes.

(** ** The accumulator in exact arithmetic *)

Section Aggregation.

Local Open Scope R_scope.

Lemma slope_value_endpoint_order (x1 y1 x2 y2 : Z) :
  slope_value (num := R) (x2, y2, x1, y1) = slope_value (x1, y1, x2, y2).
Proof.
  unfold slope_value.
  destruct (Z.eqb_spec 0 (x1 - x2)) as [H12|H12];
    destruct (Z.eqb_spec 0 (x2 - x1)) as [H21|H21]; try lia; [reflexivity|].
  cbn [ndiv of_int ExactArithmetic]. rewrite !minus_IZR.
  assert (Hd : IZR x2 - IZR x1 <> 0)
    by (rewrite <- minus_IZR; apply not_0_IZR; lia).
  field. split; lra.
Qed.

Lemma add_line_endpoint_order (p : LineProcessor R) (x1 y1 x2 y2 : Z) (s : R) :
  add_line p x2 y2 x1 y1 s = add_line p x1 y1 x2 y2 s.
Proof.
  unfold add_line, weighted_mid_point.
  assert (Hlen : line_length (num := R) x2 y2 x1 y1 = line_length x1 y1 x2 y2).
  { unfold line_length, math_pow2.
    cbn [nsqrt nadd nmul of_int ExactArithmetic]. f_equal.
    rewrite !minus_IZR. ring. }
  rewrite Hlen, (Z.add_comm x2 x1), (Z.add_comm y2 y1). reflexivity.
Qed.

(** X11: in exact arithmetic a segment is treated the same whichever of its
    two endpoints comes first: same slope, same lane, same contribution to
    the running sums. *)
Theorem classify_endpoint_order (ps : LineProcessor R * LineProcessor R)
    (x1 y1 x2 y2 : Z) :
  slope x2 y2 x1 y1 = slope (num := R) x1 y1 x2 y2 /\
  classify ps (x2, y2, x1, y1) = classify ps (x1, y1, x2, y2).
Proof.
  split.
  - rewrite !slope_is_slope_value, (slope_value_endpoint_order x1 y1 x2 y2).
    reflexivity.
  - rewrite !classify_step. unfold goes_left.
    rewrite (slope_value_endpoint_order x1 y1 x2 y2).
    rewrite (add_line_endpoint_order (fst ps) x1 y1 x2 y2).
    rewrite (add_line_endpoint_order (snd ps) x1 y1 x2 y2). reflexivity.
Qed.

Lemma add_line_commute (p : LineProcessor R) (a b : Segment * R) :
  add_lines p [a; b] = add_lines p [b; a].
Proof.
  destruct a as [[[[ax1 ay1] ax2] ay2] sa], b as [[[[bx1 by1] bx2] by2] sb].
  unfold add_lines, add_line.
  cbn [fold_left fst snd total_length sum_of_slopes sum_of_coordinates
       lane_data_tracker nadd nmul ExactArithmetic].
  f_equal; [ring | f_equal; ring | ring].
Qed.

(** X12: in exact arithmetic the running sums do not depend on the order in
    which the segments are added. *)
Theorem add_lines_order_independent (p : LineProcessor R)
    (segs segs' : list (Segment * R)) :
  Permutation segs segs' -> add_lines p segs = add_lines p segs'.
Proof.
  intros Hperm. revert p.
  induction Hperm as [|a l l' _ IH|a b l|l l' l'' _ IH1 _ IH2]; intros p.
  - reflexivity.
  - unfold add_lines in *. cbn [fold_left]. apply IH.
  - change (b :: a :: l) with ([b; a] ++ l).
    change (a :: b :: l) with ([a; b] ++ l).
    rewrite !add_lines_app, add_line_commute. reflexivity.
  - rewrite IH1. apply IH2.
Qed.

Lemma weighted_bounds (f : Segment * R -> R) (lo hi : R)
    (segs : list (Segment * R)) :
  (forall a, In a segs -> lo <= f a <= hi) ->
  (forall a, In a segs -> 0 < length_of a) ->
  lo * nsum (map length_of segs)
    <= nsum (map (fun a => (f a * length_of a)%num) segs)
    <= hi * nsum (map length_of segs) /\
  (segs <> [] -> 0 < nsum (map length_of segs)).
Proof.
  induction segs as [|a segs IH] using rev_ind; intros Hf Hl.
  - unfold nsum. cbn. split; [lra | congruence].
  - assert (Hin : forall b, In b segs -> In b (segs ++ [a]))
      by (intros b Hb; apply in_or_app; now left).
    destruct IH as (Hb & Hpos); [auto | auto |].
    assert (Hnn : 0 <= nsum (map length_of segs)).
    { destruct segs as [|c segs]; [unfold nsum; cbn; lra|].
      apply Rlt_le, Hpos. discriminate. }
    rewrite !map_app. cbn [map]. rewrite !nsum_snoc_R.
    assert (Ha : In a (segs ++ [a])) by (apply in_or_app; right; now left).
    pose proof (Hf a Ha) as Hfa. pose proof (Hl a Ha) as Hla.
    set (T := nsum (map length_of segs)) in *.
    set (W := nsum (map (fun b => (f b * length_of b)%num) segs)) in *.
    clearbody T W. cbn [nmul ExactArithmetic].
    split; [split; nra | intros _; lra].
Qed.

(** X13: in exact arithmetic, for a non-empty sequence of segments of
    positive length, the point [(mean_x, mean_y)] that [get_mean_line] pushes
    lies within the range of the segments' midpoints: [mean_x] between the
    least and the greatest midpoint abscissa, [mean_y] between the least and
    the greatest midpoint ordinate. *)
Theorem weighted_mean_point_in_range (r : TrackerRef)
    (segs : list (Segment * R)) :
  segs <> [] ->
  (forall a, In a segs -> 0 < length_of a) ->
  let p := add_lines (LineProcessor_init r) segs in
  MinRlist (map mid_x segs) <= fst (fst (aggregate p))
    <= MaxRlist (map mid_x segs) /\
  MinRlist (map mid_y segs) <= snd (fst (aggregate p))
    <= MaxRlist (map mid_y segs).
Proof.
  intros Hne Hlen. cbv zeta. unfold aggregate. cbn [fst snd].
  destruct (add_lines_sums r segs) as (Ht & _ & Hc & _). rewrite Ht, Hc.
  cbn [fst snd ndiv ExactArithmetic].
  assert (Hrange : forall f : Segment * R -> R,
    MinRlist (map f segs)
      <= nsum (map (fun a => (f a * length_of a)%num) segs)
         / nsum (map length_of segs)
      <= MaxRlist (map f segs)).
  { intros f.
    destruct (@weighted_bounds f (MinRlist (map f segs))
                (MaxRlist (map f segs)) segs) as ([Hlo Hhi] & Hpos).
    - intros a Ha. split.
      + apply MinRlist_P1. now apply in_map.
      + apply MaxRlist_P1. now apply in_map.
    - exact Hlen.
    - specialize (Hpos Hne).
      set (T := nsum (map length_of segs)) in *.
      set (W := nsum (map (fun a => (f a * length_of a)%num) segs)) in *.
      assert (Hq : W / T * T = W) by (field; lra).
      split; apply Rmult_le_reg_r with T; trivial; rewrite Hq; lra. }
  split; [apply (Hrange mid_x) | apply (Hrange mid_y)].
Qed.

Lemma constant_slope_sum (m : R) (segs : list (Segment * R)) :
  (forall a, In a segs -> snd a = m) ->
  nsum (map (fun a => (snd a * length_of a)%num) segs)
  = m * nsum (map length_of segs).
Proof.
  induction segs as [|a segs IH] using rev_ind; intros Hm.
  - unfold nsum. cbn. ring.
  - rewrite !map_app. cbn [map]. rewrite !nsum_snoc_R, IH.
    + rewrite (Hm a) by (apply in_or_app; right; now left).
      cbn [nmul ExactArithmetic]. ring.
    + intros b Hb. apply Hm. apply in_or_app. now left.
Qed.

(** X14: in exact arithmetic, segments that were all added with one and the
    same slope [m] give exactly [m] as the weighted mean slope, whatever
    their lengths and positions, as soon as [total_length != 0]. *)
Theorem parallel_segments_keep_their_slope (r : TrackerRef) (m : R)
    (segs : list (Segment * R)) :
  (forall a, In a segs -> snd a = m) ->
  let p := add_lines (LineProcessor_init r) segs in
  total_length p <> 0 ->
  snd (aggregate p) = m.
Proof.
  intros Hm. cbv zeta. unfold aggregate. cbn [snd].
  destruct (add_lines_sums r segs) as (Ht & Hs & _). rewrite Ht, Hs.
  rewrite (@constant_slope_sum m segs Hm). intros Hne.
  cbn [ndiv ExactArithmetic]. field. exact Hne.
Qed.

Lemma Rtrunc_bounds (r : R) :
  Rabs (IZR (Rtrunc r) - r) < 1 /\ Rabs (IZR (Rtrunc r)) <= Rabs r.
Proof.
  assert (Hfloor : forall x : R, 0 <= x ->
            0 <= IZR (Int_part x) <= x /\ x - IZR (Int_part x) < 1).
  { intros x Hx. destruct (base_Int_part x) as [Hle Hgt].
    assert (Hz : (0 <= Int_part x)%Z).
    { assert (Hlt : IZR (-1) < IZR (Int_part x)) by (cbn; lra).
      apply lt_IZR in Hlt. lia. }
    apply IZR_le in Hz. lra. }
  unfold Rtrunc. destruct (Rle_dec 0 r) as [Hr|Hr].
  - destruct (Hfloor r Hr) as [[H0 Hle] Hlt].
    rewrite (Rabs_right r), (Rabs_right (IZR (Int_part r))) by lra.
    split; [|lra]. apply Rabs_def1; lra.
  - assert (Hneg : 0 <= - r) by lra.
    destruct (Hfloor (- r) Hneg) as [[H0 Hle] Hlt].
    rewrite opp_IZR.
    rewrite (Rabs_left r), (Rabs_left1 (- IZR (Int_part (- r)))) by lra.
    split; [|lra]. apply Rabs_def1; lra.
Qed.

(** X15: in exact arithmetic, whenever [get_mean_line] returns a line, the
    history it queried has a mean [(mean_x, mean_y, mean_slope)] with a
    non-zero slope, and each returned abscissa is the integer part, towards
    zero, of the abscissa at which the straight line of slope [mean_slope]
    through [(mean_x, mean_y)] meets the given ordinate: it is less than one
    pixel away from it and never farther from 0 than it. *)
Theorem get_mean_line_within_one_pixel (p : LineProcessor R)
    (bottom_y top_y : Z) (g : Globals R) (bottom_x top_x b t : Z) :
  snd (get_mean_line p bottom_y top_y g) = Ok (bottom_x, b, top_x, t) ->
  exists m : R * R * R,
    get_latest_lane_data
      (deref (fst (get_mean_line p bottom_y top_y g)) (lane_data_tracker p))
      = Ok m /\
    snd m <> 0 /\ b = bottom_y /\ t = top_y /\
    IZR bottom_y - snd (fst m) = snd m * (x_at m bottom_y - fst (fst m)) /\
    IZR top_y - snd (fst m) = snd m * (x_at m top_y - fst (fst m)) /\
    Rabs (IZR bottom_x - x_at m bottom_y) < 1 /\
    Rabs (IZR top_x - x_at m top_y) < 1 /\
    Rabs (IZR bottom_x) <= Rabs (x_at m bottom_y) /\
    Rabs (IZR top_x) <= Rabs (x_at m top_y).
Proof.
  rewrite get_mean_line_result.
  destruct (get_latest_lane_data _) as [[[mx my] ms]|e]; [|discriminate].
  cbn [rbind line_of_mean]. unfold find_x2_from_slope, truediv.
  cbn [neqb zero int nsub ndiv of_int ExactArithmetic].
  destruct (Reqb ms 0) eqn:Hms; [discriminate|]. apply Reqb_false in Hms.
  cbn [rbind]. intros [= <- <- <- <-]. exists (mx, my, ms).
  cbn [fst snd x_at nsub ndiv of_int ExactArithmetic].
  destruct (Rtrunc_bounds (mx - (my - IZR bottom_y) / ms)) as [Hb1 Hb2].
  destruct (Rtrunc_bounds (mx - (my - IZR top_y) / ms)) as [Ht1 Ht2].
  repeat split; trivial; field; exact Hms.
Qed.

End Aggregation.

(** ** Independence of the lanes and smoothing *)

Section Smoothing.

Context {num : Type} `{Number num}.
Local Open Scope num_scope.

(** A call of [get_mean_line] reads and writes its own tracker only. *)
Lemma get_mean_line_local (p : LineProcessor num) (bottom_y top_y : Z)
    (g g' : Globals num) :
  deref g (lane_data_tracker p) = deref g' (lane_data_tracker p) ->
  snd (get_mean_line p bottom_y top_y g) = snd (get_mean_line p bottom_y top_y g')
  /\ deref (fst (get_mean_line p bottom_y top_y g)) (lane_data_tracker p) =
     deref (fst (get_mean_line p bottom_y top_y g')) (lane_data_tracker p).
Proof.
  intros Heq.
  assert (Hpost : deref (fst (get_mean_line p bottom_y top_y g))
                    (lane_data_tracker p) =
                  deref (fst (get_mean_line p bottom_y top_y g'))
                    (lane_data_tracker p)).
  { rewrite !get_mean_line_store.
    destruct (total_length p =? zero); [exact Heq|].
    unfold pushed. destruct (aggregate p) as [[x y] s].
    rewrite !deref_assign_same, Heq. reflexivity. }
  split; [|exact Hpost]. rewrite !get_mean_line_result, Hpost. reflexivity.
Qed.

(** X16: the left line depends on the left lane only: two calls of
    [draw_lines] with the same area of interest, the same segments of
    negative slope and the same left history compute the same left result and
    leave the same left history, whatever the other segments and the right
    history are. *)
Theorem left_line_ignores_right_lane (lines lines' : list (list Segment))
    (area_of_interest : Polygon) (g g' : Globals num)
    (lp rp lp' rp' : LineProcessor num) :
  filter goes_left (concat lines) = filter goes_left (concat lines') ->
  global_left_lane_slope_holder g = global_left_lane_slope_holder g' ->
  classify_all lines = Ok (lp, rp) ->
  classify_all lines' = Ok (lp', rp') ->
  lp = lp' /\
  snd (get_mean_line lp (snd (vertex0 area_of_interest))
         (snd (vertex1 area_of_interest)) g) =
  snd (get_mean_line lp' (snd (vertex0 area_of_interest))
         (snd (vertex1 area_of_interest)) g') /\
  global_left_lane_slope_holder (fst (draw_lines lines area_of_interest g)) =
  global_left_lane_slope_holder (fst (draw_lines lines' area_of_interest g')).
Proof.
  intros Hsegs Hhist Hcl Hcl'.
  assert (Hlp : lp = lp').
  { unfold classify_all in Hcl, Hcl'. rewrite for_each_lines in Hcl, Hcl'.
    injection Hcl as <- _. injection Hcl' as <- _. cbn [fst].
    rewrite Hsegs. reflexivity. }
  subst lp'. destruct (classify_all_trackers _ Hcl) as [Hl Hr].
  destruct (classify_all_trackers _ Hcl') as [_ Hr'].
  destruct (get_mean_line_local lp (snd (vertex0 area_of_interest))
              (snd (vertex1 area_of_interest)) g g') as [Hres Hpost].
  { rewrite Hl. exact Hhist. }
  rewrite Hl in Hpost. cbn [deref] in Hpost.
  split; [reflexivity|]. split; [exact Hres|].
  assert (Hleft : forall (ls : list (list Segment)) (q : LineProcessor num)
                         (g0 : Globals num),
            classify_all ls = Ok (lp, q) -> lane_data_tracker q = GlobalRight ->
            global_left_lane_slope_holder (fst (draw_lines ls area_of_interest g0))
            = global_left_lane_slope_holder
                (fst (get_mean_line lp (snd (vertex0 area_of_interest))
                        (snd (vertex1 area_of_interest)) g0))).
  { intros ls q g0 Hc Hq. rewrite (draw_lines_store _ area_of_interest g0 Hc).
    destruct (snd (get_mean_line lp _ _ g0)); [|reflexivity].
    apply (get_mean_line_other_tracker q _ _ _ (r' := GlobalLeft)).
    rewrite Hq. discriminate. }
  rewrite (Hleft lines rp g Hcl Hr), (Hleft lines' rp' g' Hcl' Hr').
  exact Hpost.
Qed.

End Smoothing.

Section ExactSmoothing.

Local Open Scope R_scope.

Lemma Rmean_between (l : list R) :
  l <> [] -> MinRlist l <= Rmean l <= MaxRlist l.
Proof.
  intros Hne.
  assert (Hsum : forall lo hi : R, (forall a, In a l -> lo <= a <= hi) ->
            lo * INR (length l) <= Rsum l <= hi * INR (length l)).
  { intros lo hi. clear Hne. induction l as [|a l IH]; intros Hb.
    - cbn. lra.
    - assert (Ha : lo <= a <= hi) by (apply Hb; now left).
      assert (Hl : lo * INR (length l) <= Rsum l <= hi * INR (length l))
        by (apply IH; intros b Hin; apply Hb; now right).
      change (length (a :: l)) with (S (length l)). rewrite S_INR.
      unfold Rsum in *. cbn [fold_right]. nra. }
  assert (Hn : 0 < INR (length l))
    by (apply lt_0_INR; destruct l; [congruence | cbn; lia]).
  destruct (Hsum (MinRlist l) (MaxRlist l)) as [Hlo Hhi].
  { intros a Ha. split; [apply MinRlist_P1 | apply MaxRlist_P1]; exact Ha. }
  unfold Rmean.
  assert (Hq : Rsum l / INR (length l) * INR (length l) = Rsum l)
    by (field; lra).
  split; apply Rmult_le_reg_r with (INR (length l)); trivial; rewrite Hq; lra.
Qed.

(** X17: in exact arithmetic the smoothed values never overshoot: after at
    least one push, each of the three means returned lies between the least
    and the greatest of the last 40 values pushed for it. *)
Theorem smoothed_values_between_extremes (triples : list (R * R * R))
    (mx my ms : R) :
  get_latest_lane_data (push_all HistoricalLaneDataTracker_init triples)
  = Ok (mx, my, ms) ->
  MinRlist (keep_last 40 (xs_of triples)) <= mx
    <= MaxRlist (keep_last 40 (xs_of triples)) /\
  MinRlist (keep_last 40 (ys_of triples)) <= my
    <= MaxRlist (keep_last 40 (ys_of triples)) /\
  MinRlist (keep_last 40 (slopes_of triples)) <= ms
    <= MaxRlist (keep_last 40 (slopes_of triples)).
Proof.
  rewrite push_all_window. unfold get_latest_lane_data, statistics_mean.
  cbn [mean_x_values mean_y_values slopes].
  destruct (keep_last 40 (xs_of triples)) as [|x xs] eqn:Hx; [discriminate|].
  destruct (keep_last 40 (ys_of triples)) as [|y ys] eqn:Hy; [discriminate|].
  destruct (keep_last 40 (slopes_of triples)) as [|s ss] eqn:Hs;
    [discriminate|].
  cbn [rbind exact_mean ExactArithmetic]. intros [= <- <- <-].
  repeat split; apply Rmean_between; discriminate.
Qed.

Lemma Rmean_repeat (a : R) (n : nat) : (0 < n)%nat -> Rmean (repeat a n) = a.
Proof.
  intros Hn. unfold Rmean. rewrite repeat_length.
  assert (Hsum : Rsum (repeat a n) = a * INR n).
  { clear Hn. induction n as [|n IH]; [cbn; ring|].
    rewrite S_INR. unfold Rsum in *. cbn [repeat fold_right]. rewrite IH. ring. }
  rewrite Hsum. field. apply not_0_INR. lia.
Qed.

(** X18: in exact arithmetic, once the same aggregate has been pushed 40 times
    in a row, the smoothed output is exactly that aggregate, whatever the
    history held before. *)
Theorem forty_equal_pushes_settle (older : list (R * R * R)) (x y s : R) :
  get_latest_lane_data
    (push_all HistoricalLaneDataTracker_init (older ++ repeat (x, y, s) 40))
  = Ok (x, y, s).
Proof.
  rewrite push_all_window. unfold xs_of, ys_of, slopes_of.
  rewrite !map_app, !keep_last_app by (rewrite length_map, repeat_length; lia).
  rewrite !map_repeat. cbn [fst snd].
  rewrite !keep_last_short by (rewrite repeat_length; lia).
  unfold get_latest_lane_data. cbn [mean_x_values mean_y_values slopes].
  assert (Hmean : forall a : R, statistics_mean (repeat a 40) = Ok a).
  { intros a. rewrite <- (@Rmean_repeat a 40) at 2 by lia. reflexivity. }
  rewrite !Hmean. reflexivity.
Qed.

Lemma scenario_left_call_exact :
  snd (get_mean_line scenario_left_exact 100 50 initial_globals)
  = Ok (0, 100, 50, 50)%Z.
Proof.
  unfold scenario_left_exact.
  destruct (@aggregate_single GlobalLeft 0 100 10 90 (-10 / 10)) as [Hne Hagg];
    [lia|].
  match goal with
  | |- snd (get_mean_line ?p _ _ ?g) = _ =>
      destruct (@get_mean_line_first_call p 100 50 g eq_refl Hne) as [_ ->]
  end.
  rewrite Hagg. unfold line_of_mean.
  change (0 + 10)%Z with 10%Z. change (100 + 90)%Z with 190%Z.
  rewrite (@find_x2_from_slope_exact _ _ 100 _ 0) by lra.
  rewrite (@find_x2_from_slope_exact _ _ 50 _ 50) by lra.
  reflexivity.
Qed.

End ExactSmoothing.

(** ** Instances of the further properties *)

Lemma history_forgets_older_pushes_witness :
  push_all HistoricalLaneDataTracker_init
    ([(1, 1, 1)%float] ++ forty_five_triples) =
  push_all HistoricalLaneDataTracker_init forty_five_triples.
Proof.
  apply history_forgets_older_pushes. vm_compute. lia.
Defined.

Lemma get_latest_lane_data_after_pushes_witness :
  get_latest_lane_data (push_all HistoricalLaneDataTracker_init forty_five_triples)
  = Ok (exact_mean (keep_last 40 (xs_of forty_five_triples)),
        exact_mean (keep_last 40 (ys_of forty_five_triples)),
        exact_mean (keep_last 40 (slopes_of forty_five_triples))).
Proof.
  apply (proj2 (get_latest_lane_data_after_pushes forty_five_triples)).
  vm_compute. discriminate.
Defined.

Lemma history_stays_nonempty_witness :
  slopes (deref (run_frames ([(scenario_lines, scenario_area)]
                             ++ [(right_only_lines, scenario_area)])
                   (initial_globals (num := float))) GlobalLeft) <> [].
Proof.
  apply history_stays_nonempty. vm_compute. discriminate.
Defined.

Lemma draw_lines_spans_area_of_interest_witness :
  exists a b c d : Z,
    (0, 100, 49, 50)%Z
    = (a, snd (vertex0 scenario_area), b, snd (vertex1 scenario_area)) /\
    (100, 100, 50, 50)%Z
    = (c, snd (vertex3 scenario_area), d, snd (vertex2 scenario_area)).
Proof.
  exact (proj1 (@draw_lines_spans_area_of_interest float Binary64Arithmetic)
           scenario_lines scenario_area fresh_trackers _ _ scenario_binary64).
Defined.

Lemma draw_lines_left_failure_skips_right_witness :
  snd (draw_lines right_only_lines scenario_area fresh_trackers)
  = Raise StatisticsError /\
  global_right_lane_slope_holder
    (fst (draw_lines right_only_lines scenario_area fresh_trackers))
  = global_right_lane_slope_holder fresh_trackers.
Proof.
  apply (@draw_lines_left_failure_skips_right float Binary64Arithmetic
           right_only_lines scenario_area fresh_trackers
           (LineProcessor_init GlobalLeft)
           (add_line (LineProcessor_init GlobalRight) 100 100 110 110 1%float)
           StatisticsError);
    vm_compute; reflexivity.
Defined.

Lemma get_mean_line_records_before_raising_witness :
  exists older_x older_y older_s : list float,
    mean_x_values
      (deref (fst (get_mean_line horizontal_right_binary64 100 50
                     (run_frames [] initial_globals)))
         (lane_data_tracker horizontal_right_binary64))
    = older_x ++ [fst (fst (aggregate horizontal_right_binary64))] /\
    mean_y_values
      (deref (fst (get_mean_line horizontal_right_binary64 100 50
                     (run_frames [] initial_globals)))
         (lane_data_tracker horizontal_right_binary64))
    = older_y ++ [snd (fst (aggregate horizontal_right_binary64))] /\
    slopes
      (deref (fst (get_mean_line horizontal_right_binary64 100 50
                     (run_frames [] initial_globals)))
         (lane_data_tracker horizontal_right_binary64))
    = older_s ++ [snd (aggregate horizontal_right_binary64)].
Proof.
  apply (@get_mean_line_records_before_raising float Binary64Arithmetic []
           horizontal_right_binary64 100%Z 50%Z).
  vm_compute. reflexivity.
Defined.

Lemma right_lane_zero_division_iff_witness :
  snd (get_mean_line horizontal_right 100 50 initial_globals)
  = Raise ZeroDivisionError <->
  slopes (global_right_lane_slope_holder
            (fst (get_mean_line horizontal_right 100 50 initial_globals)))
  <> [] /\
  Forall (fun s => s = 0%R)
    (slopes (global_right_lane_slope_holder
               (fst (get_mean_line horizontal_right 100 50 initial_globals)))).
Proof.
  apply (proj2 right_lane_zero_division_iff initial_globals [[(0, 5, 10, 5)%Z]]
           (LineProcessor_init GlobalLeft) horizontal_right 100%Z 50%Z).
  - repeat split; cbn; lia.
  - constructor.
  - exact horizontal_right_classified.
Defined.

Lemma left_lane_raises_iff_witness :
  snd (get_mean_line scenario_left_exact 100 50 (run_frames [] initial_globals))
  = Raise StatisticsError <->
  slopes (global_left_lane_slope_holder
            (run_frames [] (initial_globals (num := R)))) = []
  /\ total_length scenario_left_exact = 0%R.
Proof.
  exact (proj1 (@left_lane_raises_iff [] scenario_lines _ _ 100%Z 50%Z
                  scenario_classified)).
Defined.

Lemma add_lines_order_independent_witness :
  add_lines (LineProcessor_init GlobalRight)
    [((0, 0, 3, 4)%Z, (4 / 3)%R); ((0, 0, 4, 3)%Z, (3 / 4)%R)] =
  add_lines (LineProcessor_init GlobalRight)
    [((0, 0, 4, 3)%Z, (3 / 4)%R); ((0, 0, 3, 4)%Z, (4 / 3)%R)].
Proof.
  apply add_lines_order_independent. apply perm_swap.
Defined.

Lemma weighted_mean_point_in_range_witness :
  (MinRlist (map mid_x two_right_segments)
   <= fst (fst (aggregate
                  (add_lines (LineProcessor_init GlobalRight) two_right_segments)))
   <= MaxRlist (map mid_x two_right_segments))%R /\
  (MinRlist (map mid_y two_right_segments)
   <= snd (fst (aggregate
                  (add_lines (LineProcessor_init GlobalRight) two_right_segments)))
   <= MaxRlist (map mid_y two_right_segments))%R.
Proof.
  apply (@weighted_mean_point_in_range GlobalRight two_right_segments).
  - discriminate.
  - intros a [<-|[<-|[]]]; apply line_length_pos; lia.
Defined.

Lemma parallel_segments_keep_their_slope_witness :
  snd (aggregate
         (add_lines (LineProcessor_init GlobalRight) two_parallel_segments))
  = (4 / 3)%R.
Proof.
  apply (@parallel_segments_keep_their_slope GlobalRight (4 / 3)%R
           two_parallel_segments).
  - intros a [<-|[<-|[]]]; reflexivity.
  - pose proof (@line_length_pos 0 0 3 4 ltac:(lia)) as H1.
    pose proof (@line_length_pos 10 0 13 4 ltac:(lia)) as H2.
    unfold two_parallel_segments, add_lines, add_line.
    cbn [fold_left fst snd total_length LineProcessor_init nadd zero
         ExactArithmetic].
    lra.
Defined.

Lemma get_mean_line_within_one_pixel_witness :
  exists m : R * R * R,
    get_latest_lane_data
      (deref (fst (get_mean_line scenario_left_exact 100 50 initial_globals))
         (lane_data_tracker scenario_left_exact)) = Ok m /\
    snd m <> 0%R /\ 100%Z = 100%Z /\ 50%Z = 50%Z /\
    (IZR 100 - snd (fst m) = snd m * (x_at m 100 - fst (fst m)))%R /\
    (IZR 50 - snd (fst m) = snd m * (x_at m 50 - fst (fst m)))%R /\
    (Rabs (IZR 0 - x_at m 100) < 1)%R /\
    (Rabs (IZR 50 - x_at m 50) < 1)%R /\
    (Rabs (IZR 0) <= Rabs (x_at m 100))%R /\
    (Rabs (IZR 50) <= Rabs (x_at m 50))%R.
Proof.
  exact (@get_mean_line_within_one_pixel scenario_left_exact 100 50
           initial_globals 0 50 100 50 scenario_left_call_exact).
Defined.

Lemma left_line_ignores_right_lane_witness :
  global_left_lane_slope_holder
    (fst (draw_lines scenario_lines scenario_area fresh_trackers)) =
  global_left_lane_slope_holder
    (fst (draw_lines left_only_lines scenario_area fresh_trackers)).
Proof.
  refine (proj2 (proj2 (@left_line_ignores_right_lane float Binary64Arithmetic
           scenario_lines left_only_lines scenario_area
           fresh_trackers fresh_trackers
           (add_line (LineProcessor_init GlobalLeft) 0 100 10 90 (-1)%float)
           (add_line (LineProcessor_init GlobalRight) 100 100 110 110 1%float)
           (add_line (LineProcessor_init GlobalLeft) 0 100 10 90 (-1)%float)
           (LineProcessor_init GlobalRight) _ _ _ _)));
    vm_compute; reflexivity.
Defined.

Lemma smoothed_values_between_extremes_witness :
  (MinRlist (keep_last 40 (xs_of [(1, 2, 3); (3, 4, 5)])) <= Rmean [1; 3]
   <= MaxRlist (keep_last 40 (xs_of [(1, 2, 3); (3, 4, 5)])))%R /\
  (MinRlist (keep_last 40 (ys_of [(1, 2, 3); (3, 4, 5)])) <= Rmean [2; 4]
   <= MaxRlist (keep_last 40 (ys_of [(1, 2, 3); (3, 4, 5)])))%R /\
  (MinRlist (keep_last 40 (slopes_of [(1, 2, 3); (3, 4, 5)])) <= Rmean [3; 5]
   <= MaxRlist (keep_last 40 (slopes_of [(1, 2, 3); (3, 4, 5)])))%R.
Proof.
  apply (@smoothed_values_between_extremes [(1, 2, 3)%R; (3, 4, 5)%R]).
  assert (HK : 1 <= length [(1, 2, 3)%R; (3, 4, 5)%R] <= 40) by (cbn; lia).
  exact (get_latest_lane_data_short (num := R) _ HK).
Defined.
